(** * File-type dispatch and recursive extraction (services/geminiService.ts,
      services/localParsers.ts)

    A shallow embedding of the extraction pipeline: the remote adapter
    [extractWithGemini], the media-type table [isGeminiSupported], the
    dispatcher [processFile], the archive expander [processZipFile], the
    presentation extractor [processPptxAsZip] and [getMimeFromExt].

    JavaScript strings are modelled as byte strings (UTF-8); every string
    operation the source applies (endsWith, split, toLowerCase on ASCII keys,
    concatenation) is insensitive to that choice. *)

From stdpp Require Import base strings list gmap sorting.
From Stdlib Require Import NArith Ascii String Lia.

Local Open Scope string_scope.

(** ** JavaScript string primitives used by the source *)

Module JsString.

(** [s.endsWith(suf)]: some suffix of [s] is [suf]. *)
Fixpoint endsWith (s suf : string) : bool :=
  if String.eqb s suf then true
  else match s with
       | EmptyString => false
       | String _ s' => endsWith s' suf
       end.

(** [s.split(c)] for a one-character separator; the result is never empty. *)
Fixpoint split (c : ascii) (s : string) : list string :=
  match s with
  | EmptyString => [EmptyString]
  | String a s' =>
      if Ascii.eqb a c then EmptyString :: split c s'
      else match split c s' with
           | [] => [String a EmptyString]
           | h :: t => String a h :: t
           end
  end.

(** [arr.pop()] read as a value: the last element, [None] for [undefined]. *)
Definition pop (l : list string) : option string := last l.

Definition lowerChar (a : ascii) : ascii :=
  let n := N_of_ascii a in
  if ((65 <=? n) && (n <=? 90))%N then ascii_of_N (n + 32) else a.

(** [s.toLowerCase()] on the ASCII letters. The non-ASCII code points whose
    lower case is an ASCII letter (U+212A to k, U+0130 to i plus a combining
    dot) cannot produce any key looked up below, so the restriction does not
    change a lookup result. *)
Fixpoint toLowerCase (s : string) : string :=
  match s with
  | EmptyString => EmptyString
  | String a s' => String (lowerChar a) (toLowerCase s')
  end.

Definition isDigit (a : ascii) : bool :=
  let n := N_of_ascii a in ((48 <=? n) && (n <=? 57))%N.

(** [s.startsWith(p)], returning the rest of [s] after [p]. *)
Fixpoint stripPrefix (p s : string) : option string :=
  match p, s with
  | EmptyString, _ => Some s
  | String a p', String b s' => if Ascii.eqb a b then stripPrefix p' s' else None
  | String _ _, EmptyString => None
  end.

(** The longest run of decimal digits at the head of [s], and what follows. *)
Fixpoint spanDigits (s : string) : string * string :=
  match s with
  | String a s' =>
      if isDigit a then let '(d, r) := spanDigits s' in (String a d, r)
      else (EmptyString, s)
  | EmptyString => (EmptyString, EmptyString)
  end.

(** The line feed, written [\n] in the source. *)
Definition LF : string := String "010"%char EmptyString.

(** The last character of a string, if any. *)
Fixpoint lastChar (s : string) : option ascii :=
  match s with
  | EmptyString => None
  | String a EmptyString => Some a
  | String _ s' => lastChar s'
  end.

(** [s.startsWith(p)] as a proposition. *)
Definition beginsWith (s p : string) : Prop :=
  exists rest, s = p ++ rest.

(** [s.includes(t)] as a proposition. *)
Definition includes (s t : string) : Prop :=
  exists pre post, s = pre ++ t ++ post.


End JsString.

Import JsString.

(** ** JavaScript values and thrown values *)

(** The values a property read on the [map] object of [getMimeFromExt] can
    produce: a string of the table, a built-in function or the prototype
    object inherited from [Object.prototype], or [undefined]. *)
Inductive JsValue : Type :=
| VUndefined
| VString (s : string)
| VNativeFunction (fname : string)
| VObjectPrototype.

(** Truthiness, as tested by [||]. *)
Definition truthy (v : JsValue) : bool :=
  match v with
  | VUndefined => false
  | VString s => negb (String.eqb s "")
  | VNativeFunction _ | VObjectPrototype => true
  end.

(** [String(v)], the conversion applied when a value is used as a string. *)
Definition toStr (v : JsValue) : string :=
  match v with
  | VUndefined => "undefined"
  | VString s => s
  | VNativeFunction f => "function " ++ f ++ "() { [native code] }"
  | VObjectPrototype => "[object Object]"
  end.

(** A value caught by [catch]: an [Error] instance with its [name] and
    [message], or any other value, given by its string conversion, which has
    no [message] property ([FileReader] rejects with a progress event). The
    collaborators never throw [null] or [undefined]. *)
Inductive Thrown : Type :=
| JsError (name message : string)
| JsOther (str : string).

(** [new Error(msg)]. *)
Definition newError (msg : string) : Thrown := JsError "Error" msg.

(** [`${e}`]: [Error.prototype.toString] for an error instance. *)
Definition thrownToString (e : Thrown) : string :=
  match e with
  | JsError n m =>
      if String.eqb n "" then m
      else if String.eqb m "" then n
      else n ++ ": " ++ m
  | JsOther s => s
  end.

(** [e.message], [None] when the property is absent. *)
Definition thrownMessage (e : Thrown) : option string :=
  match e with
  | JsError _ m => Some m
  | JsOther _ => None
  end.

(** [e.message || "Unknown error"]. *)
Definition messageOrUnknown (e : Thrown) : string :=
  match thrownMessage e with
  | Some m => if String.eqb m "" then "Unknown error" else m
  | None => "Unknown error"
  end.

(** ** geminiService.ts: the media types the remote extractor accepts *)

Definition supported : list string :=
  [ "application/pdf";
    "image/png"; "image/jpeg"; "image/webp"; "image/heic"; "image/heif";
    "audio/mpeg"; "audio/mp3"; "audio/wav"; "audio/aac"; "audio/flac"; "audio/x-m4a";
    "video/mp4"; "video/mpeg"; "video/mov"; "video/avi"; "video/x-flv"; "video/mpg";
    "video/webm"; "video/wmv"; "video/3gpp" ].

Definition isGeminiSupported (mimeType : string) : bool :=
  bool_decide (mimeType ∈ supported).

(** ** localParsers.ts: [getMimeFromExt] *)

(** The own properties of the object literal [map]. *)
Definition mimeMap : gmap string string :=
  list_to_map
    [ ("png", "image/png"); ("jpg", "image/jpeg"); ("pdf", "application/pdf");
      ("txt", "text/plain"); ("xml", "text/xml"); ("json", "application/json") ].

(** The properties every object literal inherits from [Object.prototype]. *)
Definition objectPrototype : gmap string JsValue :=
  list_to_map
    [ ("constructor", VNativeFunction "Object");
      ("hasOwnProperty", VNativeFunction "hasOwnProperty");
      ("isPrototypeOf", VNativeFunction "isPrototypeOf");
      ("propertyIsEnumerable", VNativeFunction "propertyIsEnumerable");
      ("toLocaleString", VNativeFunction "toLocaleString");
      ("toString", VNativeFunction "toString");
      ("valueOf", VNativeFunction "valueOf");
      ("__defineGetter__", VNativeFunction "__defineGetter__");
      ("__defineSetter__", VNativeFunction "__defineSetter__");
      ("__lookupGetter__", VNativeFunction "__lookupGetter__");
      ("__lookupSetter__", VNativeFunction "__lookupSetter__");
      ("__proto__", VObjectPrototype) ].

(** The property read [map[ext]]: own properties first, then the prototype. *)
Definition mapGet (ext : string) : JsValue :=
  match mimeMap !! ext with
  | Some v => VString v
  | None => default VUndefined (objectPrototype !! ext)
  end.

(** [map[ext] || 'application/octet-stream']. The source declares the result a
    [string]; at run time it is whatever the property read produced. *)
Definition getMimeFromExt (ext : string) : JsValue :=
  let v := mapGet ext in
  if truthy v then v else VString "application/octet-stream".

(** The [type] a [File] ends up with when constructed with [{ type: v }]: the
    string conversion of [v], emptied if it has a character outside
    U+0020..U+007E, otherwise in ASCII lower case. *)
Definition printable (a : ascii) : bool :=
  let n := N_of_ascii a in ((32 <=? n) && (n <=? 126))%N.

Fixpoint allPrintable (s : string) : bool :=
  match s with
  | EmptyString => true
  | String a s' => printable a && allPrintable s'
  end.

Definition fileTypeOf (v : JsValue) : string :=
  let t := toStr v in
  if allPrintable t then toLowerCase t else "".

(** [filename.split('.').pop()?.toLowerCase()] followed by [ext || '']. *)
Definition extOf (filename : string) : string :=
  default "" (toLowerCase <$> pop (split "." filename)).

(** The media type given to the [File] synthesised for an archive entry. *)
Definition entryType (filename : string) : string :=
  fileTypeOf (getMimeFromExt (extOf filename)).

(** ** Promises over a log of remote calls *)

(** What the pipeline does to the outside world: it enters the remote adapter
    and, from there, sends a request to the service. *)
Inductive Event : Type :=
| ExtractCall (mimeType data : string)
| NetworkRequest (mimeType data : string).

(** The settled state of a promise. *)
Inductive Outcome (A : Type) : Type :=
| Resolved (a : A)
| Rejected (e : Thrown).
Arguments Resolved {A} a.
Arguments Rejected {A} e.

(** An [async] computation: it runs from a log (most recent event first) and
    settles, leaving the log extended by the calls it made. *)
Definition Promise (A : Type) : Type := list Event -> Outcome A * list Event.

Definition ret {A} (a : A) : Promise A := fun log => (Resolved a, log).
Definition throw {A} (e : Thrown) : Promise A := fun log => (Rejected e, log).
Definition settle {A} (o : Outcome A) : Promise A := fun log => (o, log).
Definition emit (ev : Event) : Promise unit := fun log => (Resolved tt, ev :: log).

Definition bind {A B} (m : Promise A) (k : A -> Promise B) : Promise B :=
  fun log =>
    match m log with
    | (Resolved a, log') => k a log'
    | (Rejected e, log') => (Rejected e, log')
    end.

(** [try { m } catch (e) { h e }]. *)
Definition tryCatch {A} (m : Promise A) (h : Thrown -> Promise A) : Promise A :=
  fun log =>
    match m log with
    | (Resolved a, log') => (Resolved a, log')
    | (Rejected e, log') => h e log'
    end.

Notation "'do' x <- m ; k" := (bind m (fun x => k))
  (at level 10, x name, m at level 100, k at level 200).

(** ** Files, blobs and archives *)

(** An entry of [contents.files]: its [dir] flag and what [async('blob')]
    settles to. *)
#[warnings="-register-all"]
Inductive ZipObject (B : Type) : Type :=
  mkZipObject (dir : bool) (content : Outcome B).
Arguments mkZipObject {B} dir content.

(** A blob: its [size] attribute and its bytes, together with what
    [JSZip.loadAsync] makes of it. [Container] carries [contents.files] as the
    list of its keys, in the order [Object.keys] enumerates them, each with
    its entry; [Opaque] bytes are rejected by [loadAsync]. Only [size] is read
    by the dispatch; the bytes go to the decoders. *)
#[warnings="-register-all"]
Inductive Blob : Type :=
| Opaque (size : N) (bytes : string)
| Container (size : N) (bytes : string) (files : list (string * ZipObject Blob)).

Definition blobSize (b : Blob) : N :=
  match b with Opaque n _ | Container n _ _ => n end.

Definition blobBytes (b : Blob) : string :=
  match b with Opaque _ s | Container _ s _ => s end.

Record File : Type := mkFile { name : string; type : string; blob : Blob }.

Definition size (file : File) : N := blobSize (blob file).

(** A workbook as [XLSX.read] returns it: the sheet names in their declared
    order and the sheets by name. *)
Definition Worksheet : Type := list (list string).
Record Workbook : Type :=
  mkWorkbook { SheetNames : list string; Sheets : gmap string Worksheet }.

(** ** External collaborators

    The service, the browser's readers and parsers and the third-party
    decoders are not part of the repository; the pipeline is verified for
    every behaviour they may have. *)
Record Externals : Type := mkExternals {
  (** [process.env.API_KEY || ''] *)
  apiKey : string;
  (** [response.text] of [ai.models.generateContent] for a media type and
      payload, given the calls made so far; [None] for [undefined] *)
  generateContent : list Event -> string -> string -> Outcome (option string);
  (** the three [FileReader] helpers, on a blob's bytes *)
  readFileAsArrayBuffer : string -> Outcome string;
  readFileAsText : string -> Outcome string;
  readFileAsBase64 : string -> Outcome string;
  (** [mammoth.extractRawText({ arrayBuffer })], its [value] *)
  extractRawText : string -> Outcome string;
  (** [XLSX.read] and [XLSX.utils.sheet_to_csv] (given [workbook.Sheets[name]]) *)
  XLSX_read : string -> Outcome Workbook;
  sheet_to_csv : option Worksheet -> string;
  (** the error [JSZip.loadAsync] rejects with *)
  zipLoadError : string -> Thrown;
  (** [new DOMParser().parseFromString(text, 'text/html').body.textContent] *)
  htmlBodyText : string -> option string;
  (** the [textContent] of the [a:t] elements of an XML document, in order *)
  slideTextRuns : string -> list string;
  (** [String.prototype.trim] *)
  trim : string -> string
}.

(** ** Slide paths and their numbers *)

(** A match of [lit\d+\.xml] at the head of [s], giving the digits. The digits
    are followed by a dot, so the greedy run is the only way to match. *)
Definition matchAt (lit s : string) : option string :=
  match stripPrefix lit s with
  | Some r =>
      let '(digits, r') := spanDigits r in
      if String.eqb digits "" then None
      else match stripPrefix ".xml" r' with
           | Some _ => Some digits
           | None => None
           end
  | None => None
  end.

(** The leftmost match of [lit\d+\.xml] anywhere in [s]. *)
Fixpoint search (lit s : string) : option string :=
  match matchAt lit s with
  | Some d => Some d
  | None => match s with
            | EmptyString => None
            | String _ s' => search lit s'
            end
  end.

(** [f.match(/ppt\/slides\/slide\d+\.xml/)] is not null. *)
Definition isSlidePath (f : string) : bool :=
  match search "ppt/slides/slide" f with Some _ => true | None => false end.

(** [a.match(/slide(\d+)\.xml/)?.[1]] *)
Definition slideDigits (a : string) : option string :=
  search "slide" a.

(** A number as [parseInt] returns it for a string of decimal digits: an
    integer-valued double or, beyond the range of doubles, [Infinity]. *)
Inductive JsNumber : Type :=
| Finite (n : N)
| Infinity.

Definition digitValue (a : ascii) : N := (N_of_ascii a - 48)%N.

Definition decimalValue (digits : string) : N :=
  fold_left (fun acc a => (10 * acc + digitValue a)%N) (list_ascii_of_string digits) 0%N.

(** The double nearest to an integer (ties to even): exact below [2^53]. *)
Definition toDouble (n : N) : JsNumber :=
  if (n <? 2 ^ 53)%N then Finite n
  else
    let e := (N.log2 n - 52)%N in
    let q := N.shiftr n e in
    let r := N.land n (N.ones e) in
    let half := N.shiftl 1 (e - 1) in
    let q' := if (r <? half)%N then q
              else if (half <? r)%N then (q + 1)%N
              else if N.even q then q else (q + 1)%N in
    let v := N.shiftl q' e in
    if (v <? 2 ^ 1024)%N then Finite v else Infinity.

(** [parseInt(digits)] on a string of decimal digits, as the engines compute
    it: the double nearest to the integer the digits denote. *)
Definition parseInt (digits : string) : JsNumber :=
  toDouble (decimalValue digits).

(** [parseInt(a.match(/slide(\d+)\.xml/)?.[1] || "0")] *)
Definition slideNumber (a : string) : JsNumber :=
  parseInt (default "0" (slideDigits a)).

(** The sign of [numA - numB]; [Infinity - Infinity] is [NaN], which [sort]
    reads as [+0]. *)
Definition compareFn (a b : string) : comparison :=
  match slideNumber a, slideNumber b with
  | Finite x, Finite y => (x ?= y)%N
  | Finite _, Infinity => Lt
  | Infinity, Finite _ => Gt
  | Infinity, Infinity => Eq
  end.

(** [Array.prototype.sort(cmp)]: a stable sort; for a comparator that orders
    by a key, as [compareFn] does, the result is the stable insertion sort. *)
Fixpoint insertBy {A} (cmp : A -> A -> comparison) (x : A) (l : list A) : list A :=
  match l with
  | [] => [x]
  | y :: l' => match cmp x y with
               | Gt => y :: insertBy cmp x l'
               | _ => x :: l
               end
  end.

Definition sortBy {A} (cmp : A -> A -> comparison) (l : list A) : list A :=
  foldr (insertBy cmp) [] l.

(** [contents.files[key]] *)
Fixpoint lookupFile {B} (files : list (string * ZipObject B)) (key : string)
  : option (ZipObject B) :=
  match files with
  | [] => None
  | (k, z) :: rest => if String.eqb k key then Some z else lookupFile rest key
  end.

(** The slide entries in the order they are read. *)
Definition slideFilesOf {B} (files : list (string * ZipObject B)) : list string :=
  sortBy compareFn (List.filter isSlidePath (fst <$> files)).

(** ** geminiService.ts: the remote extractor adapter *)

Section Pipeline.

Context (E : Externals).

(** [await ai.models.generateContent(...)] followed by [response.text]. *)
Definition request (mimeType data : string) : Promise (option string) :=
  fun log => (generateContent E log mimeType data, NetworkRequest mimeType data :: log).

Definition missingKeyMessage : string :=
  "API Key is missing. Please checking your environment configuration.".
Definition emptyResponseMessage : string := "Gemini returned an empty response.".
Definition aiErrorPrefix : string := "Lỗi trích xuất AI: ".

Definition extractWithGemini (fileBase64 mimeType : string) : Promise string :=
  do _ <- emit (ExtractCall mimeType fileBase64);
  tryCatch
    (do _ <- (if String.eqb (apiKey E) "" then
                throw (newError missingKeyMessage)
              else ret tt);
     do text <- request mimeType fileBase64;
     match text with
     | Some t =>
         if String.eqb t "" then throw (newError emptyResponseMessage)
         else ret t
     | None => throw (newError emptyResponseMessage)
     end)
    (fun error => throw (newError (aiErrorPrefix ++ messageOrUnknown error))).

(** ** localParsers.ts *)

(** [new JSZip().loadAsync(file)], giving [contents.files]. *)
Definition loadAsync (b : Blob) : Promise (list (string * ZipObject Blob)) :=
  match b with
  | Opaque _ bytes => throw (zipLoadError E bytes)
  | Container _ _ files => ret files
  end.

(** The piece appended for an entry whose extraction threw [e]. *)
Definition placeholder (e : Thrown) : string :=
  "(Không thể trích xuất file này trong ZIP: " ++ thrownToString e ++ ")" ++ LF.

Definition fileHeader (filename : string) : string :=
  LF ++ "--- FILE: " ++ filename ++ " ---" ++ LF.

Definition archiveHeader (fname : string) : string :=
  "--- ARCHIVE: " ++ fname ++ " ---" ++ LF.

(** [processZipFile], with the dispatcher it re-enters left open. The match
    on the blob is [loadAsync], written out so that the entries are seen to be
    parts of the blob; the body of the loop awaits the entry's blob, wraps it
    in a [File] named after the entry with the type of its extension, and
    dispatches it, all inside the [try]. *)
Definition processZipFileWith
    (dispatch : Blob -> string -> string -> Promise string)
    (fname : string) (b : Blob) : Promise string :=
  match b with
  | Opaque _ bytes => throw (zipLoadError E bytes)
  | Container _ _ files =>
      (fix loop (fs : list (string * ZipObject Blob)) (combinedText : string)
         : Promise string :=
         match fs with
         | [] => ret combinedText
         | (filename, mkZipObject dir content) :: rest =>
             if dir then loop rest combinedText
             else
               let combinedText := combinedText ++ fileHeader filename in
               do piece <-
                 tryCatch
                   match content with
                   | Rejected e => throw e
                   | Resolved fileData =>
                       dispatch fileData filename (entryType filename)
                   end
                   (fun e => ret (placeholder e));
               loop rest (combinedText ++ piece)
         end) files (archiveHeader fname)
  end.

(** [contents.files[slide].async('string')]; reading a missing entry is a
    [TypeError]. *)
Definition asyncString (z : option (ZipObject Blob)) : Promise string :=
  match z with
  | Some (mkZipObject _ (Resolved b)) => ret (blobBytes b)
  | Some (mkZipObject _ (Rejected e)) => throw e
  | None => throw (JsError "TypeError" "Cannot read properties of undefined (reading 'async')")
  end.

(** The text a slide contributes to [fullText]. *)
Definition slideOutput (xmlText : string) : string :=
  let slideText :=
    fold_left (fun slideText t => slideText ++ t ++ " ") (slideTextRuns E xmlText) "" in
  if negb (String.eqb (trim E slideText) "") then slideText ++ LF
  else "(Trang trống)" ++ LF.

Fixpoint readSlides (files : list (string * ZipObject Blob))
    (slideFiles : list string) (fullText : string) : Promise string :=
  match slideFiles with
  | [] => ret fullText
  | slide :: rest =>
      do xmlText <- asyncString (lookupFile files slide);
      readSlides files rest (fullText ++ slideOutput xmlText)
  end.

Definition processPptxAsZip (file : File) : Promise string :=
  tryCatch
    (do files <- loadAsync (blob file);
     do fullText <- readSlides files (slideFilesOf files) "";
     ret (if String.eqb fullText "" then "(Không tìm thấy nội dung văn bản trong slide)"
          else fullText))
    (fun e => throw (newError "Lỗi đọc file PPTX.")).

(** The branches of [processFile], in the order of the source. *)

Definition sizeLimit : N := 20 * 1024 * 1024.

Definition tooLargeMessage : string :=
  "File quá lớn (>20MB) để xử lý trực tiếp trên trình duyệt. Vui lòng nén hoặc cắt nhỏ file.".

Definition remoteBranch (file : File) : Promise string :=
  if (sizeLimit <? size file)%N then throw (newError tooLargeMessage)
  else
    do base64 <- settle (readFileAsBase64 E (blobBytes (blob file)));
    extractWithGemini base64 (type file).

Definition wordBranch (file : File) : Promise string :=
  do arrayBuffer <- settle (readFileAsArrayBuffer E (blobBytes (blob file)));
  settle (extractRawText E arrayBuffer).

(** The body of [workbook.SheetNames.forEach]. *)
Definition appendSheet (workbook : Workbook) (text sheetName : string) : string :=
  let sheet := Sheets workbook !! sheetName in
  let text := text ++ ("--- Sheet: " ++ sheetName ++ " ---" ++ LF) in
  let text := text ++ sheet_to_csv E sheet in
  text ++ (LF ++ LF).

Definition spreadsheetBranch (file : File) : Promise string :=
  do arrayBuffer <- settle (readFileAsArrayBuffer E (blobBytes (blob file)));
  do workbook <- settle (XLSX_read E arrayBuffer);
  ret (fold_left (appendSheet workbook) (SheetNames workbook) "").

Definition textBranch (file : File) : Promise string :=
  do text <- settle (readFileAsText E (blobBytes (blob file)));
  if String.eqb (type file) "text/html" then ret (default "" (htmlBodyText E text))
  else ret text.

Definition unsupportedError (mimeType : string) : Thrown :=
  newError ("Định dạng file không được hỗ trợ: " ++ mimeType).

Definition docxType : string :=
  "application/vnd.openxmlformats-officedocument.wordprocessingml.document".
Definition xlsxType : string :=
  "application/vnd.openxmlformats-officedocument.spreadsheetml.sheet".
Definition pptxType : string :=
  "application/vnd.openxmlformats-officedocument.presentationml.presentation".

(** [processFile], by recursion on the blob: an archive re-enters it on the
    blobs of its entries. *)
Fixpoint processFileRec (b : Blob) (fname mimeType : string) {struct b}
  : Promise string :=
  let file := mkFile fname mimeType b in
  if String.eqb mimeType "application/zip" || endsWith fname ".zip" then
    processZipFileWith processFileRec fname b
  else if isGeminiSupported mimeType then
    remoteBranch file
  else if String.eqb mimeType docxType || endsWith fname ".docx" then
    wordBranch file
  else if String.eqb mimeType xlsxType || endsWith fname ".xlsx" then
    spreadsheetBranch file
  else if String.eqb mimeType pptxType || endsWith fname ".pptx" then
    processPptxAsZip file
  else if String.eqb mimeType "text/plain" || String.eqb mimeType "text/html"
          || String.eqb mimeType "application/rtf"
          || endsWith fname ".txt" || endsWith fname ".md" then
    textBranch file
  else if String.eqb mimeType "application/epub+zip" || endsWith fname ".epub" then
    processZipFileWith processFileRec fname b
  else
    throw (unsupportedError mimeType).

Definition processFile (file : File) : Promise string :=
  processFileRec (blob file) (name file) (type file).

Definition processZipFile (file : File) : Promise string :=
  processZipFileWith processFileRec (name file) (blob file).

(** The [try] block of the loop of [processZipFile] for one entry: await its
    blob, wrap it in a [File], dispatch it. *)
Definition entryOutcome (filename : string) (content : Outcome Blob) : Promise string :=
  match content with
  | Rejected e => throw e
  | Resolved fileData => processFile (mkFile filename (entryType filename) fileData)
  end.

(** The piece an entry adds after its header: the extracted text, or the
    placeholder when the [try] block threw. *)
Definition pieceOf (r : Outcome string) : string :=
  match r with
  | Resolved extracted => extracted
  | Rejected e => placeholder e
  end.

(** The loop of [processZipFile], with the dispatcher closed. *)
Fixpoint zipLoop (fs : list (string * ZipObject Blob)) (combinedText : string)
  : Promise string :=
  match fs with
  | [] => ret combinedText
  | (filename, mkZipObject dir content) :: rest =>
      if dir then zipLoop rest combinedText
      else
        let combinedText := combinedText ++ fileHeader filename in
        do piece <- tryCatch (entryOutcome filename content)
                             (fun e => ret (placeholder e));
        zipLoop rest (combinedText ++ piece)
  end.

End Pipeline.

(** ** The strategy a file is dispatched to *)

Inductive Strategy : Type :=
| Archive | RemoteMultimodal | WordDocument | Spreadsheet
| PresentationPackage | PlainOrHtmlText | ArchiveLikeBook | Unsupported.

(** The guards of [processFile], first match first. *)
Definition classify (mimeType fname : string) : Strategy :=
  if String.eqb mimeType "application/zip" || endsWith fname ".zip" then Archive
  else if isGeminiSupported mimeType then RemoteMultimodal
  else if String.eqb mimeType docxType || endsWith fname ".docx" then WordDocument
  else if String.eqb mimeType xlsxType || endsWith fname ".xlsx" then Spreadsheet
  else if String.eqb mimeType pptxType || endsWith fname ".pptx" then PresentationPackage
  else if String.eqb mimeType "text/plain" || String.eqb mimeType "text/html"
          || String.eqb mimeType "application/rtf"
          || endsWith fname ".txt" || endsWith fname ".md" then PlainOrHtmlText
  else if String.eqb mimeType "application/epub+zip" || endsWith fname ".epub" then
    ArchiveLikeBook
  else Unsupported.

(** The component each strategy invokes. *)
Definition run (E : Externals) (s : Strategy) (file : File) : Promise string :=
  match s with
  | Archive | ArchiveLikeBook => processZipFile E file
  | RemoteMultimodal => remoteBranch E file
  | WordDocument => wordBranch E file
  | Spreadsheet => spreadsheetBranch E file
  | PresentationPackage => processPptxAsZip E file
  | PlainOrHtmlText => textBranch E file
  | Unsupported => throw (unsupportedError (type file))
  end.

(** ** Vocabulary of the properties *)

(** The concatenation of a list of text blocks. *)
Definition joinAll (blocks : list string) : string := foldr append "" blocks.

(** What one sheet contributes: its header line, its CSV rendering and a
    blank-line separator. *)
Definition sheetBlock (E : Externals) (workbook : Workbook) (sheetName : string) : string :=
  ("--- Sheet: " ++ sheetName ++ " ---" ++ LF)
    ++ sheet_to_csv E (Sheets workbook !! sheetName) ++ (LF ++ LF).

(** The XML text of a slide entry that can be read. *)
Definition slideXml (files : list (string * ZipObject Blob)) (slide : string)
  : option string :=
  match lookupFile files slide with
  | Some (mkZipObject _ (Resolved b)) => Some (blobBytes b)
  | _ => None
  end.

(** The order of JavaScript numbers on the values [parseInt] returns. *)
Definition numLe (x y : JsNumber) : Prop :=
  match x, y with
  | Finite a, Finite b => (a <= b)%N
  | _, Infinity => True
  | Infinity, Finite _ => False
  end.

Definition slideLe (a b : string) : Prop := numLe (slideNumber a) (slideNumber b).

(** The slide index as the integer its digits denote. *)
Definition slideIndex (a : string) : N := decimalValue (default "0" (slideDigits a)).

Definition noSlidesMarker : string := "(Không tìm thấy nội dung văn bản trong slide)".

(** ** types.ts: the declared media types *)

(** The values of the enum [SupportedMimeTypes], in the order declared. *)
Definition SupportedMimeTypes : list string :=
  [ "application/pdf"; "image/png"; "image/jpeg"; "image/webp"; "image/heic"; "image/heif";
    "audio/mpeg"; "audio/wav"; "audio/aac"; "audio/flac";
    "video/mp4"; "video/mpeg"; "video/quicktime"; "video/x-msvideo"; "video/x-ms-wmv";
    "text/plain"; "text/html"; "application/rtf";
    docxType; xlsxType; pptxType; "application/zip"; "application/epub+zip" ].

(** ** Slide numbers, compared *)

(** A string of decimal digits. *)
Fixpoint allDigits (s : string) : bool :=
  match s with
  | EmptyString => true
  | String a s' => isDigit a && allDigits s'
  end.

Definition numEqb (x y : JsNumber) : bool :=
  match x, y with
  | Finite a, Finite b => (a =? b)%N
  | Infinity, Infinity => true
  | _, _ => false
  end.

(** The slide paths whose number is [n]. *)
Definition numbered (n : JsNumber) (a : string) : bool := numEqb (slideNumber a) n.

(** What follows a run of digits: nothing, or a character that is no digit. *)
Definition stopsDigits (r : string) : bool :=
  match r with
  | EmptyString => true
  | String a _ => negb (isDigit a)
  end.

(** ** Remote calls, audited *)

(** The media type a remote call was made for. *)
Definition eventType (ev : Event) : string :=
  match ev with
  | ExtractCall mimeType _ | NetworkRequest mimeType _ => mimeType
  end.

(** [log'] is [log] with further calls on top, all for supported types. *)
Definition extendsSupported (log log' : list Event) : Prop :=
  exists new, log' = (new ++ log)%list /\
              Forall (fun ev => isGeminiSupported (eventType ev) = true) new.

(** ** Archives that stay local *)

(** The entries of an archive, at every depth, none of which has the
    extension of a remote-supported type. *)
Fixpoint localOnly (b : Blob) : bool :=
  match b with
  | Opaque _ _ => true
  | Container _ _ files =>
      forallb
        (fun entry =>
           match entry with
           | (filename, mkZipObject dir content) =>
               dir
               || match content with
                  | Rejected _ => true
                  | Resolved fileData =>
                      negb (bool_decide (extOf filename ∈ ["png"; "jpg"; "pdf"]))
                      && localOnly fileData
                  end
           end) files
  end.

(** The file entries of a listing. *)
Definition fileEntries (files : list (string * ZipObject Blob))
  : list (string * ZipObject Blob) :=
  List.filter (fun entry => match entry with (_, mkZipObject dir _) => negb dir end) files.

(** ** App.tsx: the list of files and its updates *)

Module App.

Inductive ExtractionStatus : Type :=
| IDLE | PENDING | PROCESSING | COMPLETED | ERROR.

(** [errorMessage] is [None] while the property is absent. *)
Record ExtractedFile : Type := mkExtractedFile {
  id : string;
  name : string;
  type : string;
  size : N;
  status : ExtractionStatus;
  content : string;
  errorMessage : option string
}.

(** The two pieces of component state the handlers update. *)
Record State : Type := mkState {
  files : list ExtractedFile;
  selectedFileId : option string
}.

(** [f.id === id ? { ...f, status: PROCESSING } : f] *)
Definition markProcessing (id0 : string) (f : ExtractedFile) : ExtractedFile :=
  if String.eqb (id f) id0 then
    mkExtractedFile (id f) (name f) (type f) (size f) PROCESSING (content f) (errorMessage f)
  else f.

(** [f.id === id ? { ...f, status: COMPLETED, content: extractedText } : f] *)
Definition markCompleted (id0 extractedText : string) (f : ExtractedFile) : ExtractedFile :=
  if String.eqb (id f) id0 then
    mkExtractedFile (id f) (name f) (type f) (size f) COMPLETED extractedText (errorMessage f)
  else f.

(** [f.id === id ? { ...f, status: ERROR, errorMessage: ... } : f] *)
Definition markError (id0 message : string) (f : ExtractedFile) : ExtractedFile :=
  if String.eqb (id f) id0 then
    mkExtractedFile (id f) (name f) (type f) (size f) ERROR (content f) (Some message)
  else f.

(** [prev ? prev : id] on a [string | null]. *)
Definition keepOrSelect (prev : option string) (id0 : string) : option string :=
  match prev with
  | Some p => if String.eqb p "" then Some id0 else Some p
  | None => Some id0
  end.

(** [processSingleFile]: the state after its updates, and the log of remote
    calls after the [await]. *)
Definition processSingleFile (E : Externals) (id0 : string) (file : File)
    (st : State) (log : list Event) : State * list Event :=
  let st := mkState (markProcessing id0 <$> files st) (selectedFileId st) in
  match processFile E file log with
  | (Resolved extractedText, log') =>
      (mkState (markCompleted id0 extractedText <$> files st)
               (keepOrSelect (selectedFileId st) id0), log')
  | (Rejected error, log') =>
      (mkState (markError id0 (messageOrUnknown error) <$> files st)
               (selectedFileId st), log')
  end.

(** The entry [addFiles] creates for a file; [id0] is the identifier drawn
    with [Math.random]. *)
Definition newExtractedFile (id0 : string) (file : File) : ExtractedFile :=
  match file with
  | mkFile fname ftype b => mkExtractedFile id0 fname ftype (blobSize b) PENDING "" None
  end.

(** The loop of [addFiles] over the new entries and their files. *)
Fixpoint processQueue (E : Externals) (queue : list (string * File))
    (st : State) (log : list Event) : State * list Event :=
  match queue with
  | [] => (st, log)
  | (id0, originalFile) :: rest =>
      let '(st', log') := processSingleFile E id0 originalFile st log in
      processQueue E rest st' log'
  end.

(** [addFiles], given the files with the identifiers drawn for them. *)
Definition addFiles (E : Externals) (newFiles : list (string * File))
    (st : State) (log : list Event) : State * list Event :=
  let newExtractedFiles :=
    (fun item => newExtractedFile item.1 item.2) <$> newFiles in
  let st := mkState (files st ++ newExtractedFiles) (selectedFileId st) in
  processQueue E newFiles st log.

(** [removeFile] *)
Definition removeFile (id0 : string) (st : State) : State :=
  mkState (List.filter (fun f => negb (String.eqb (id f) id0)) (files st))
          (if bool_decide (selectedFileId st = Some id0) then None
           else selectedFileId st).

(** The entry a file of the queue ends as. *)
Definition settled (id0 : string) (file : File) (r : Outcome string) : ExtractedFile :=
  match file, r with
  | mkFile fname ftype b, Resolved extractedText =>
      mkExtractedFile id0 fname ftype (blobSize b) COMPLETED extractedText None
  | mkFile fname ftype b, Rejected error =>
      mkExtractedFile id0 fname ftype (blobSize b) ERROR "" (Some (messageOrUnknown error))
  end.

(** The outcomes of the files of a queue, each dispatched from the log the
    files before it left. *)
Fixpoint outcomes (E : Externals) (queue : list (string * File)) (log : list Event)
  : list ExtractedFile * list Event :=
  match queue with
  | [] => ([], log)
  | (id0, file) :: rest =>
      let '(r, log') := processFile E file log in
      let '(done, log'') := outcomes E rest log' in
      (settled id0 file r :: done, log'')
  end.

(** The identifier of the first entry of a list that is completed. *)
Fixpoint firstCompleted (l : list ExtractedFile) : option string :=
  match l with
  | [] => None
  | f :: rest =>
      match status f with
      | COMPLETED => Some (id f)
      | _ => firstCompleted rest
      end
  end.

(** A selection that [prev ? prev : id] keeps. *)
Definition selected (sel : option string) : bool :=
  match sel with
  | Some p => negb (String.eqb p "")
  | None => false
  end.

End App.

(** ** Sample collaborators and files, for the examples *)

Module Sample.

Definition workbook : Workbook :=
  mkWorkbook ["Q1"; "Q2"]
    (list_to_map [("Q1", [["a"; "b"]]); ("Q2", [["c"]])]).

(** A service that answers every request with a fixed transcript, readers
    and decoders that hand the bytes through. *)
Definition env : Externals := {|
  apiKey := "key";
  generateContent := fun _ _ data => Resolved (Some ("text of " ++ data));
  readFileAsArrayBuffer := Resolved;
  readFileAsText := Resolved;
  readFileAsBase64 := Resolved;
  extractRawText := Resolved;
  XLSX_read := fun _ => Resolved workbook;
  sheet_to_csv := fun sheet =>
    match sheet with
    | Some rows => foldr (fun row acc => foldr append "" row ++ LF ++ acc) "" rows
    | None => ""
    end;
  zipLoadError := fun _ => newError "Can't find end of central directory";
  htmlBodyText := Some;
  slideTextRuns := fun xml => [xml];
  trim := fun s => if String.eqb s " " then "" else s
|}.

Definition pdf (n : N) : File := mkFile "scan.pdf" "application/pdf" (Opaque n "%PDF").

Definition textEntry (s : string) : ZipObject Blob :=
  mkZipObject false (Resolved (Opaque 5 s)).

(** The same collaborators without a credential. *)
Definition envWithoutKey : Externals := {|
  apiKey := "";
  generateContent := generateContent env;
  readFileAsArrayBuffer := readFileAsArrayBuffer env;
  readFileAsText := readFileAsText env;
  readFileAsBase64 := readFileAsBase64 env;
  extractRawText := extractRawText env;
  XLSX_read := XLSX_read env;
  sheet_to_csv := sheet_to_csv env;
  zipLoadError := zipLoadError env;
  htmlBodyText := htmlBodyText env;
  slideTextRuns := slideTextRuns env;
  trim := trim env
|}.

(** An archive of three entries whose second entry is corrupt. *)
Definition bundleFiles : list (string * ZipObject Blob) :=
  [ ("a.txt", textEntry "alpha");
    ("b.txt", mkZipObject false (Rejected (newError "Corrupted zip : CRC32 mismatch")));
    ("c.txt", textEntry "gamma") ].

Definition bundle : File :=
  mkFile "bundle.zip" "application/zip" (Container 300 "PK" bundleFiles).

(** A presentation package without slide entries. *)
Definition emptyDeck : File :=
  mkFile "deck.pptx" pptxType
    (Container 64 "PK" [("docProps/app.xml", textEntry "<Properties/>")]).

End Sample.

(** * Properties *)

(** ** Strings *)

Section StringFacts.

Lemma append_nil_l (s : string) : "" ++ s = s.
Proof. reflexivity. Qed.

Lemma append_cons (a : ascii) (s t : string) :
  String a s ++ t = String a (s ++ t).
Proof. reflexivity. Qed.

Lemma append_nil_r (s : string) : s ++ "" = s.
Proof. induction s as [|a s IH]; [done|]. by rewrite append_cons, IH. Qed.

Lemma append_assoc (s t u : string) : (s ++ t) ++ u = s ++ (t ++ u).
Proof. induction s as [|a s IH]; [done|]. by rewrite !append_cons, IH. Qed.

Lemma lastChar_append (s t : string) :
  t <> "" -> lastChar (s ++ t) = lastChar t.
Proof.
  intros Ht. induction s as [|a s IH]; [done|].
  rewrite append_cons. simpl. rewrite IH.
  destruct (s ++ t) eqn:Hst; [|done].
  destruct s; [|done]. by rewrite append_nil_l in Hst.
Qed.

Lemma endsWith_unfold (s suf : string) :
  endsWith s suf =
  if String.eqb s suf then true
  else match s with
       | EmptyString => false
       | String _ s' => endsWith s' suf
       end.
Proof. by destruct s. Qed.

Lemma endsWith_spec (s suf : string) :
  endsWith s suf = true <-> exists pre, s = pre ++ suf.
Proof.
  induction s as [|a s IH]; rewrite endsWith_unfold.
  - destruct (String.eqb_spec "" suf) as [<-|Hne].
    + split; [by exists ""|done].
    + split; [done|]. intros [[|b pre] Hpre]; [by rewrite append_nil_l in Hpre|].
      by rewrite append_cons in Hpre.
  - destruct (String.eqb_spec (String a s) suf) as [<-|Hne].
    + split; [by exists ""|done].
    + rewrite IH. split.
      * intros [pre ->]. exists (String a pre). by rewrite append_cons.
      * intros [[|b pre] Hpre]; [by rewrite append_nil_l in Hpre|].
        rewrite append_cons in Hpre. injection Hpre as _ ->. by exists pre.
Qed.

Lemma endsWith_lastChar (s suf : string) :
  suf <> "" -> endsWith s suf = true -> lastChar s = lastChar suf.
Proof.
  intros Hne [pre ->]%endsWith_spec. by apply lastChar_append.
Qed.

(** Two suffixes of a name that end in different characters exclude each
    other: a name ending in [.docx] does not end in [.zip]. *)
Lemma endsWith_excl (s suf1 suf2 : string) :
  suf1 <> "" -> suf2 <> "" -> lastChar suf1 <> lastChar suf2 ->
  endsWith s suf1 = true -> endsWith s suf2 = false.
Proof.
  intros H1 H2 Hne Hs1. destruct (endsWith s suf2) eqn:Hs2; [|done].
  apply endsWith_lastChar in Hs1, Hs2; congruence.
Qed.

Lemma stripPrefix_spec (p s r : string) :
  stripPrefix p s = Some r <-> s = p ++ r.
Proof.
  revert s. induction p as [|a p IH]; intros s; simpl.
  - rewrite append_nil_l. split; [by intros [= ->]|by intros ->].
  - destruct s as [|b s]; [done|]. rewrite append_cons.
    destruct (Ascii.eqb_spec a b) as [->|Hne].
    + rewrite IH. split; [by intros ->|by intros [= ->]].
    + split; [done|]. intros [= ? _]. congruence.
Qed.



End StringFacts.

Ltac discharge_suffix :=
  match goal with
  | H : endsWith ?s ?suf = true |- endsWith ?s _ = false =>
      apply (endsWith_excl s suf); [done | done | simpl; congruence | exact H]
  end.

(** ** The dispatcher *)

Section Dispatch.

Context (E : Externals).

(** [processFile] invokes the component of the strategy [classify] picks. *)
Lemma processFile_run (file : File) :
  processFile E file = run E (classify (type file) (name file)) file.
Proof.
  destruct file as [fname mimeType b]. unfold processFile, classify. simpl.
  destruct b; simpl;
    repeat match goal with
           | |- context [if ?c then _ else _] => destruct c; [done|]
           end; done.
Qed.

Lemma supported_not_zip (mimeType : string) :
  isGeminiSupported mimeType = true ->
  String.eqb mimeType "application/zip" = false.
Proof.
  intros Hsup. destruct (String.eqb_spec mimeType "application/zip") as [->|]; [|done].
  by vm_compute in Hsup.
Qed.

Lemma classify_remote (mimeType fname : string) :
  isGeminiSupported mimeType = true ->
  endsWith fname ".zip" = false ->
  classify mimeType fname = RemoteMultimodal.
Proof.
  intros Hsup Hzip. unfold classify.
  by rewrite (supported_not_zip mimeType Hsup), Hzip, Hsup.
Qed.

Lemma processFile_remote (file : File) :
  isGeminiSupported (type file) = true ->
  endsWith (name file) ".zip" = false ->
  processFile E file = remoteBranch E file.
Proof.
  intros Hsup Hzip. rewrite processFile_run.
  by rewrite (classify_remote _ _ Hsup Hzip).
Qed.

(** The adapter, case by case. *)
Lemma extractWithGemini_unfold (fileBase64 mimeType : string) (log : list Event) :
  extractWithGemini E fileBase64 mimeType log =
  let log1 := ExtractCall mimeType fileBase64 :: log in
  let log2 := NetworkRequest mimeType fileBase64 :: log1 in
  if String.eqb (apiKey E) "" then
    (Rejected (newError (aiErrorPrefix ++ missingKeyMessage)), log1)
  else
    match generateContent E log1 mimeType fileBase64 with
    | Resolved (Some t) =>
        if String.eqb t "" then
          (Rejected (newError (aiErrorPrefix ++ emptyResponseMessage)), log2)
        else (Resolved t, log2)
    | Resolved None =>
        (Rejected (newError (aiErrorPrefix ++ emptyResponseMessage)), log2)
    | Rejected cause =>
        (Rejected (newError (aiErrorPrefix ++ messageOrUnknown cause)), log2)
    end.
Proof.
  unfold extractWithGemini, bind, tryCatch, emit, request, throw, ret. simpl.
  destruct (String.eqb (apiKey E) ""); [done|].
  destruct (generateContent E _ mimeType fileBase64) as [[t|]|cause]; [|done..].
  by destruct (String.eqb t "").
Qed.

Lemma extractWithGemini_logged (fileBase64 mimeType : string) (log : list Event) :
  ExtractCall mimeType fileBase64 ∈ (extractWithGemini E fileBase64 mimeType log).2.
Proof.
  rewrite extractWithGemini_unfold. simpl.
  destruct (String.eqb (apiKey E) ""); [set_solver|].
  destruct (generateContent E _ mimeType fileBase64) as [[t|]|cause];
    [destruct (String.eqb t "")|..]; set_solver.
Qed.

End Dispatch.

(** ** Classification (properties 1 and 2) *)

(** C1, as stated, fails: a supported media type does not decide the route
    when the name ends in [.zip]; the archive rule is tested first. *)
Lemma supported_type_with_zip_name_is_archive :
  isGeminiSupported "application/pdf" = true /\
  classify "application/pdf" "scan.zip" = Archive /\
  classify "application/pdf" "scan.zip" <> RemoteMultimodal.
Proof. by vm_compute. Qed.

(** C1 (amended): for every media type of the fixed remote-supported set and
    every file name that does not end in [.zip], the dispatch classifies the
    input as [RemoteMultimodal] and routes it to the remote branch, whatever
    else the name's extension is. *)
Theorem supported_type_routed_remote (mimeType fname : string) :
  isGeminiSupported mimeType = true ->
  endsWith fname ".zip" = false ->
  classify mimeType fname = RemoteMultimodal /\
  forall (E : Externals) (b : Blob),
    processFile E (mkFile fname mimeType b) = remoteBranch E (mkFile fname mimeType b).
Proof.
  intros Hsup Hzip. split; [by apply classify_remote|].
  intros E b. by apply processFile_remote.
Qed.

Lemma supported_type_routed_remote_witness :
  classify "image/png" "slides.docx" = RemoteMultimodal /\
  forall (E : Externals) (b : Blob),
    processFile E (mkFile "slides.docx" "image/png" b)
    = remoteBranch E (mkFile "slides.docx" "image/png" b).
Proof.
  apply (supported_type_routed_remote "image/png" "slides.docx"); reflexivity.
Defined.

(** C4: a file whose declared media type is empty, or any other type that is
    neither the archive type nor a remote-supported one, and whose name ends
    in [.docx] is classified [WordDocument] and handled by the Word decoder. *)
Theorem docx_extension_reachable (mimeType fname : string) :
  mimeType <> "application/zip" ->
  isGeminiSupported mimeType = false ->
  endsWith fname ".docx" = true ->
  classify mimeType fname = WordDocument /\
  forall (E : Externals) (b : Blob),
    processFile E (mkFile fname mimeType b) = wordBranch E (mkFile fname mimeType b).
Proof.
  intros Hzip%String.eqb_neq Hsup Hdocx.
  assert (classify mimeType fname = WordDocument) as Hc.
  { unfold classify. rewrite Hzip, Hsup, Hdocx.
    assert (endsWith fname ".zip" = false) as -> by discharge_suffix.
    by rewrite orb_true_r. }
  split; [done|]. intros E b. rewrite processFile_run. simpl. by rewrite Hc.
Qed.

Lemma docx_extension_reachable_witness :
  classify "" "report.docx" = WordDocument /\
  forall (E : Externals) (b : Blob),
    processFile E (mkFile "report.docx" "" b) = wordBranch E (mkFile "report.docx" "" b).
Proof.
  apply (docx_extension_reachable "" "report.docx"); [discriminate | reflexivity | reflexivity].
Defined.

(** ** The size ceiling (property 3) *)

(** C5: for a remote-eligible file the ceiling of 20 x 1024 x 1024 bytes is
    exact and checked before anything else: at exactly that size the file is
    read and handed to the remote adapter (the call is logged), and from one
    byte more the dispatch fails with the size error and the log is
    unchanged, so neither the adapter nor the service was called. *)
Theorem size_ceiling_exact (E : Externals) (file : File) (log : list Event) :
  isGeminiSupported (type file) = true ->
  endsWith (name file) ".zip" = false ->
  (size file = (20 * 1024 * 1024)%N ->
   forall base64, readFileAsBase64 E (blobBytes (blob file)) = Resolved base64 ->
     processFile E file log = extractWithGemini E base64 (type file) log /\
     ExtractCall (type file) base64 ∈ (processFile E file log).2) /\
  ((20 * 1024 * 1024 + 1 <= size file)%N ->
   processFile E file log = (Rejected (newError tooLargeMessage), log)).
Proof.
  intros Hsup Hzip. rewrite (processFile_remote E file Hsup Hzip).
  unfold remoteBranch, sizeLimit. split.
  - intros Hsize base64 Hread.
    assert ((20 * 1024 * 1024 <? size file)%N = false) as ->
        by (apply N.ltb_ge; lia).
    unfold bind, settle. rewrite Hread. split; [done|].
    apply extractWithGemini_logged.
  - intros Hsize.
    assert ((20 * 1024 * 1024 <? size file)%N = true) as ->
        by (apply N.ltb_lt; lia).
    done.
Qed.

Lemma size_ceiling_exact_witness :
  (processFile Sample.env (Sample.pdf 20971520) []
   = extractWithGemini Sample.env "%PDF" "application/pdf" [] /\
   ExtractCall "application/pdf" "%PDF" ∈ (processFile Sample.env (Sample.pdf 20971520) []).2) /\
  processFile Sample.env (Sample.pdf 20971521) []
  = (Rejected (newError tooLargeMessage), []).
Proof.
  split.
  - apply (size_ceiling_exact Sample.env (Sample.pdf 20971520) []);
      reflexivity.
  - apply (size_ceiling_exact Sample.env (Sample.pdf 20971521) []);
      [reflexivity | reflexivity | vm_compute; discriminate].
Defined.

(** ** The remote adapter's failures *)

(** C10: every failure of the remote adapter is thrown by its [catch] as a
    new [Error] whose message begins with "Lỗi trích xuất AI: " followed by
    the message of the underlying error. This covers the local check of the
    credential (no request is sent), the check of an empty response, and an
    error of the service; an underlying error without a message contributes
    "Unknown error" after the prefix. *)
Theorem extract_failures_carry_prefix
    (E : Externals) (fileBase64 mimeType : string) (log : list Event) :
  let log1 := ExtractCall mimeType fileBase64 :: log in
  let log2 := NetworkRequest mimeType fileBase64 :: log1 in
  (apiKey E = "" ->
   extractWithGemini E fileBase64 mimeType log
   = (Rejected
        (JsError "Error"
           "Lỗi trích xuất AI: API Key is missing. Please checking your environment configuration."),
      log1)) /\
  (apiKey E <> "" ->
   forall text, generateContent E log1 mimeType fileBase64 = Resolved text ->
     text = None \/ text = Some "" ->
     extractWithGemini E fileBase64 mimeType log
     = (Rejected (JsError "Error" "Lỗi trích xuất AI: Gemini returned an empty response."),
        log2)) /\
  (apiKey E <> "" ->
   forall cause, generateContent E log1 mimeType fileBase64 = Rejected cause ->
     (forall m, thrownMessage cause = Some m -> m <> "" ->
        extractWithGemini E fileBase64 mimeType log
        = (Rejected (JsError "Error" ("Lỗi trích xuất AI: " ++ m)), log2)) /\
     (thrownMessage cause = None \/ thrownMessage cause = Some "" ->
        extractWithGemini E fileBase64 mimeType log
        = (Rejected (JsError "Error" "Lỗi trích xuất AI: Unknown error"), log2)) /\
     exists message,
       extractWithGemini E fileBase64 mimeType log
       = (Rejected (JsError "Error" message), log2) /\
       beginsWith message ("Lỗi trích xuất AI: " ++ default "" (thrownMessage cause))) /\
  (forall e log',
     extractWithGemini E fileBase64 mimeType log = (Rejected e, log') ->
     exists m, e = JsError "Error" ("Lỗi trích xuất AI: " ++ m)).
Proof.
  intros log1 log2. rewrite extractWithGemini_unfold. fold log1 log2. cbv zeta.
  split; [|split; [|split]].
  - by intros ->.
  - intros Hkey%String.eqb_neq text Htext Hempty. rewrite Hkey, Htext.
    by destruct Hempty as [-> | ->].
  - intros Hkey%String.eqb_neq cause Hcause. rewrite Hkey, Hcause.
    unfold messageOrUnknown. split; [|split].
    + intros m -> Hm. by rewrite (proj2 (String.eqb_neq _ _) Hm).
    + by intros [-> | ->].
    + destruct (thrownMessage cause) as [m|]; simpl.
      * destruct (String.eqb_spec m "") as [->|Hm].
        -- eexists. split; [done|]. by exists "Unknown error".
        -- eexists. split; [done|]. exists "". by rewrite append_nil_r.
      * eexists. split; [done|]. by exists "Unknown error".
  - intros e log'.
    destruct (String.eqb (apiKey E) ""); [intros [= <- _]; by eexists|].
    destruct (generateContent E log1 mimeType fileBase64) as [[t|]|cause];
      [destruct (String.eqb t "")|..]; intros [= <- _] || (try done); by eexists.
Qed.

Lemma extract_failures_carry_prefix_witness :
  extractWithGemini Sample.envWithoutKey "AAAA" "image/png" []
  = (Rejected
       (JsError "Error"
          "Lỗi trích xuất AI: API Key is missing. Please checking your environment configuration."),
     [ExtractCall "image/png" "AAAA"]).
Proof.
  apply extract_failures_carry_prefix. reflexivity.
Defined.

(** ** The spreadsheet decoder (property 7) *)

Section Spreadsheet.

Context (E : Externals).

Lemma fold_left_appendSheet (workbook : Workbook) (names : list string) (text : string) :
  fold_left (appendSheet E workbook) names text
  = text ++ joinAll (sheetBlock E workbook <$> names).
Proof.
  revert text. induction names as [|n names IH]; intros text; simpl.
  - by rewrite append_nil_r.
  - rewrite IH. unfold appendSheet, sheetBlock. by rewrite !append_assoc.
Qed.

Lemma spreadsheetBranch_resolved (file : File) (log : list Event)
    (arrayBuffer : string) (workbook : Workbook) :
  readFileAsArrayBuffer E (blobBytes (blob file)) = Resolved arrayBuffer ->
  XLSX_read E arrayBuffer = Resolved workbook ->
  spreadsheetBranch E file log
  = (Resolved (joinAll (sheetBlock E workbook <$> SheetNames workbook)), log).
Proof.
  intros Hread Hbook. unfold spreadsheetBranch, bind, settle, ret.
  by rewrite Hread, Hbook, fold_left_appendSheet.
Qed.

End Spreadsheet.

(** C8: for a workbook, the decoder emits for each sheet, in the order of
    [SheetNames], the line "--- Sheet: <name> ---", the sheet rendered as CSV and
    a blank-line separator; for the sheets Q1, Q2 the block of Q1 comes first,
    then the block of Q2. *)
Theorem spreadsheet_sheets_in_order
    (E : Externals) (file : File) (log : list Event)
    (arrayBuffer : string) (workbook : Workbook) :
  classify (type file) (name file) = Spreadsheet ->
  readFileAsArrayBuffer E (blobBytes (blob file)) = Resolved arrayBuffer ->
  XLSX_read E arrayBuffer = Resolved workbook ->
  processFile E file log
  = (Resolved (joinAll (sheetBlock E workbook <$> SheetNames workbook)), log) /\
  (SheetNames workbook = ["Q1"; "Q2"] ->
   processFile E file log
   = (Resolved
        (("--- Sheet: Q1 ---" ++ LF) ++ sheet_to_csv E (Sheets workbook !! "Q1") ++ (LF ++ LF)
         ++ ("--- Sheet: Q2 ---" ++ LF) ++ sheet_to_csv E (Sheets workbook !! "Q2") ++ (LF ++ LF)),
      log)).
Proof.
  intros Hclass Hread Hbook. rewrite processFile_run, Hclass. simpl.
  rewrite (spreadsheetBranch_resolved E file log arrayBuffer workbook Hread Hbook).
  split; [done|]. intros ->. simpl. unfold sheetBlock.
  by rewrite append_nil_r, !append_assoc.
Qed.

Lemma spreadsheet_sheets_in_order_witness :
  processFile Sample.env (mkFile "sales.xlsx" "" (Opaque 4 "PK")) []
  = (Resolved
       (("--- Sheet: Q1 ---" ++ LF) ++ ("ab" ++ LF) ++ (LF ++ LF)
        ++ ("--- Sheet: Q2 ---" ++ LF) ++ ("c" ++ LF) ++ (LF ++ LF)), []).
Proof.
  apply (spreadsheet_sheets_in_order Sample.env
           (mkFile "sales.xlsx" "" (Opaque 4 "PK")) [] "PK" Sample.workbook);
    reflexivity.
Defined.

(** ** The presentation extractor (property 5) *)

Section Sorting.

Lemma insertBy_Permutation {A} (cmp : A -> A -> comparison) (x : A) (l : list A) :
  insertBy cmp x l ≡ₚ x :: l.
Proof.
  induction l as [|y l IH]; simpl; [done|].
  destruct (cmp x y); try done.
  rewrite IH. apply Permutation_swap.
Qed.

Lemma filter_none {A} (f : A -> bool) (l : list A) :
  Forall (fun x => f x = false) l -> List.filter f l = [].
Proof. induction 1 as [|x l Hx _ IH]; simpl; [done|]. by rewrite Hx. Qed.

Lemma sortBy_Permutation {A} (cmp : A -> A -> comparison) (l : list A) :
  sortBy cmp l ≡ₚ l.
Proof.
  induction l as [|x l IH]; simpl; [done|].
  fold (sortBy cmp l). by rewrite insertBy_Permutation, IH.
Qed.

Lemma numLe_trans (x y z : JsNumber) : numLe x y -> numLe y z -> numLe x z.
Proof. destruct x, y, z; simpl; try done. lia. Qed.

Lemma compareFn_not_Gt (a b : string) : compareFn a b <> Gt -> slideLe a b.
Proof.
  unfold compareFn, slideLe. by destruct (slideNumber a), (slideNumber b).
Qed.

Lemma compareFn_Gt (a b : string) : compareFn a b = Gt -> slideLe b a.
Proof.
  unfold compareFn, slideLe. destruct (slideNumber a), (slideNumber b); simpl; try done.
  intros Hcmp%N.compare_gt_iff. lia.
Qed.

Lemma insertBy_sorted (x : string) (l : list string) :
  StronglySorted slideLe l -> StronglySorted slideLe (insertBy compareFn x l).
Proof.
  induction 1 as [|y l Hsorted IH Hy]; simpl.
  - by repeat constructor.
  - destruct (compareFn x y) eqn:Hcmp.
    1,2: assert (slideLe x y) as Hxy by (apply compareFn_not_Gt; congruence);
         constructor; [by constructor|];
         constructor; [done|];
         eapply Forall_impl; [exact Hy|]; intros z Hz; by eapply numLe_trans.
    constructor; [done|].
    rewrite insertBy_Permutation. constructor; [|done].
    by apply compareFn_Gt.
Qed.

Lemma sortBy_sorted (l : list string) : StronglySorted slideLe (sortBy compareFn l).
Proof.
  induction l as [|x l IH]; simpl; [constructor|].
  by apply insertBy_sorted.
Qed.

(** Below [2^53] the number [parseInt] returns is the integer itself. *)
Lemma slideNumber_exact (a : string) :
  (slideIndex a < 2 ^ 53)%N -> slideNumber a = Finite (slideIndex a).
Proof.
  unfold slideNumber, slideIndex, parseInt, toDouble.
  intros Hlt%N.ltb_lt. by rewrite Hlt.
Qed.

Lemma sorted_by_index (l : list string) :
  Forall (fun a => (slideIndex a < 2 ^ 53)%N) l ->
  StronglySorted slideLe l ->
  StronglySorted (fun a b => (slideIndex a <= slideIndex b)%N) l.
Proof.
  intros Hsmall Hsorted. induction Hsorted as [|x l Hsorted IH Hx]; [constructor|].
  apply Forall_cons in Hsmall as [Hxs Hls].
  constructor; [by apply IH|].
  apply Forall_forall. intros y Hy.
  rewrite Forall_forall in Hx, Hls. specialize (Hx y Hy). specialize (Hls y Hy).
  unfold slideLe in Hx. by rewrite !slideNumber_exact in Hx.
Qed.

End Sorting.

Section Presentation.

Context (E : Externals).

Lemma append_eq_nil (s t : string) : s ++ t = "" -> s = "".
Proof. by destruct s. Qed.

Lemma slideOutput_nonempty (xmlText : string) : slideOutput E xmlText <> "".
Proof.
  unfold slideOutput. destruct (negb _); intros Heq.
  - apply (f_equal lastChar) in Heq. by rewrite lastChar_append in Heq.
  - discriminate Heq.
Qed.

Lemma asyncString_slideXml (files : list (string * ZipObject Blob))
    (slide xmlText : string) :
  slideXml files slide = Some xmlText ->
  asyncString (lookupFile files slide) = ret xmlText.
Proof.
  unfold slideXml, asyncString.
  destruct (lookupFile files slide) as [[dir [b|e]]|]; by intros [= <-].
Qed.

Lemma readSlides_resolved (files : list (string * ZipObject Blob))
    (slides xmls : list string) (fullText : string) (log : list Event) :
  Forall2 (fun slide xml => slideXml files slide = Some xml) slides xmls ->
  readSlides E files slides fullText log
  = (Resolved (fullText ++ joinAll (slideOutput E <$> xmls)), log).
Proof.
  intros Hread. revert fullText.
  induction Hread as [|slide xml slides xmls Hxml _ IH]; intros fullText; simpl.
  - by rewrite append_nil_r.
  - unfold bind. rewrite (asyncString_slideXml _ _ _ Hxml). unfold ret at 1.
    by rewrite IH, append_assoc.
Qed.

Lemma processPptxAsZip_resolved (file : File) (sz : N) (bytes : string)
    (files : list (string * ZipObject Blob)) (xmls : list string) (log : list Event) :
  blob file = Container sz bytes files ->
  Forall2 (fun slide xml => slideXml files slide = Some xml) (slideFilesOf files) xmls ->
  processPptxAsZip E file log
  = (Resolved (match xmls with
               | [] => noSlidesMarker
               | _ => joinAll (slideOutput E <$> xmls)
               end), log).
Proof.
  intros Hblob Hread. unfold processPptxAsZip, tryCatch, bind. rewrite Hblob. simpl.
  unfold ret at 1. rewrite (readSlides_resolved _ _ _ _ _ Hread).
  rewrite append_nil_l. unfold ret. destruct xmls as [|xml xmls]; [done|].
  simpl.
  match goal with
  | |- context [String.eqb ?s ""] => destruct (String.eqb_spec s "") as [Hempty|_]
  end; [|done].
  by apply append_eq_nil, slideOutput_nonempty in Hempty.
Qed.

End Presentation.

(** C6: the slide entries of a presentation package are read in the numeric
    order of the slide number in their path: the entries read are exactly
    those matching the pattern, ordered by the number [parseInt] gives (by the
    integer itself below 2^53), and their texts are concatenated in that
    order; slide2.xml, slide10.xml, slide1.xml come out as 1, 2, 10. *)
Theorem pptx_slides_in_numeric_order
    (E : Externals) (file : File) (sz : N) (bytes : string)
    (files : list (string * ZipObject Blob)) (log : list Event) :
  blob file = Container sz bytes files ->
  let slides := slideFilesOf files in
  slides ≡ₚ List.filter isSlidePath files.*1 /\
  StronglySorted slideLe slides /\
  (Forall (fun a => (slideIndex a < 2 ^ 53)%N) slides ->
   StronglySorted (fun a b => (slideIndex a <= slideIndex b)%N) slides) /\
  (forall xmls,
     Forall2 (fun slide xml => slideXml files slide = Some xml) slides xmls ->
     slides <> [] ->
     processPptxAsZip E file log = (Resolved (joinAll (slideOutput E <$> xmls)), log)) /\
  (forall d2 d10 d1 b2 b10 b1,
     files = [ ("ppt/slides/slide2.xml", mkZipObject d2 (Resolved b2));
               ("ppt/slides/slide10.xml", mkZipObject d10 (Resolved b10));
               ("ppt/slides/slide1.xml", mkZipObject d1 (Resolved b1)) ] ->
     processPptxAsZip E file log
     = (Resolved (slideOutput E (blobBytes b1) ++ slideOutput E (blobBytes b2)
                  ++ slideOutput E (blobBytes b10)), log)).
Proof.
  intros Hblob slides. split; [apply sortBy_Permutation|].
  split; [apply sortBy_sorted|].
  split; [intros Hsmall; apply sorted_by_index; [done|apply sortBy_sorted]|].
  split.
  - intros xmls Hread Hne.
    rewrite (processPptxAsZip_resolved E file sz bytes files xmls log Hblob Hread).
    destruct xmls; [|done]. apply Forall2_nil_inv_r in Hread. done.
  - intros d2 d10 d1 b2 b10 b1 ->.
    rewrite (processPptxAsZip_resolved E file sz bytes _
               [blobBytes b1; blobBytes b2; blobBytes b10] log Hblob).
    + simpl. by rewrite append_nil_r.
    + repeat constructor.
Qed.

Lemma pptx_slides_in_numeric_order_witness :
  processPptxAsZip Sample.env
    (mkFile "deck.pptx" pptxType
       (Container 64 "PK"
          [ ("ppt/slides/slide2.xml", Sample.textEntry "two");
            ("ppt/slides/slide10.xml", Sample.textEntry "ten");
            ("ppt/slides/slide1.xml", Sample.textEntry "one") ])) []
  = (Resolved (("one " ++ LF) ++ ("two " ++ LF) ++ ("ten " ++ LF)), []).
Proof.
  refine (proj2 (proj2 (proj2 (proj2
            (pptx_slides_in_numeric_order Sample.env
               (mkFile "deck.pptx" pptxType
                  (Container 64 "PK"
                     [ ("ppt/slides/slide2.xml", Sample.textEntry "two");
                       ("ppt/slides/slide10.xml", Sample.textEntry "ten");
                       ("ppt/slides/slide1.xml", Sample.textEntry "one") ]))
               64 "PK" _ [] eq_refl))))
            false false false (Opaque 5 "two") (Opaque 5 "ten") (Opaque 5 "one") eq_refl).
Defined.

(** ** The marker of a package without slides *)

(** C7, as stated, fails: the marker returned is not the English sentence. *)
Lemma pptx_marker_is_not_english :
  processPptxAsZip Sample.env Sample.emptyDeck []
  = (Resolved "(Không tìm thấy nội dung văn bản trong slide)", []) /\
  processPptxAsZip Sample.env Sample.emptyDeck []
  <> (Resolved "(no text content found in slides)", []).
Proof. by vm_compute. Qed.

(** C7 (amended): for every presentation package that opens and has no entry
    matching the slide pattern, the extractor returns the literal marker
    "(Không tìm thấy nội dung văn bản trong slide)". *)
Theorem pptx_without_slides_marker
    (E : Externals) (file : File) (sz : N) (bytes : string)
    (files : list (string * ZipObject Blob)) (log : list Event) :
  blob file = Container sz bytes files ->
  Forall (fun key => isSlidePath key = false) files.*1 ->
  processPptxAsZip E file log
  = (Resolved "(Không tìm thấy nội dung văn bản trong slide)", log).
Proof.
  intros Hblob Hnone.
  rewrite (processPptxAsZip_resolved E file sz bytes files [] log Hblob); [done|].
  unfold slideFilesOf. rewrite (filter_none _ _ Hnone). constructor.
Qed.

Lemma pptx_without_slides_marker_witness :
  processPptxAsZip Sample.env
    (mkFile "deck.pptx" pptxType
       (Container 64 "PK" [("ppt/presentation.xml", Sample.textEntry "<p/>")])) []
  = (Resolved "(Không tìm thấy nội dung văn bản trong slide)", []).
Proof.
  eapply (pptx_without_slides_marker Sample.env); [reflexivity|].
  repeat constructor.
Defined.

(** ** The archive expander (properties 4 and 8) *)

Section Archive.

Context (E : Externals).

Lemma processZipFile_Container (file : File) (sz : N) (bytes : string)
    (files : list (string * ZipObject Blob)) (log : list Event) :
  blob file = Container sz bytes files ->
  processZipFile E file log = zipLoop E files (archiveHeader (name file)) log.
Proof.
  intros Hblob. unfold processZipFile, processZipFileWith. rewrite Hblob. clear Hblob.
  generalize (archiveHeader (name file)). revert log.
  induction files as [|[filename [dir content]] rest IH]; intros log acc; [done|].
  simpl. destruct dir; [apply IH|].
  unfold bind, tryCatch, entryOutcome, processFile. simpl.
  destruct content as [fileData|e]; simpl.
  - destruct (processFileRec E fileData filename (entryType filename) log)
      as [[extracted|e] log1]; apply IH.
  - apply IH.
Qed.

Lemma zipLoop_cons_file (filename : string) (content : Outcome Blob)
    (rest : list (string * ZipObject Blob)) (acc : string) (log : list Event) :
  zipLoop E ((filename, mkZipObject false content) :: rest) acc log
  = zipLoop E rest
      ((acc ++ fileHeader filename) ++ pieceOf (entryOutcome E filename content log).1)
      (entryOutcome E filename content log).2.
Proof.
  simpl. unfold bind, tryCatch.
  by destruct (entryOutcome E filename content log) as [[extracted|e] log1].
Qed.

(** The loop never rejects, and only appends to the text it is given. *)
Lemma zipLoop_resolves (fs : list (string * ZipObject Blob)) (acc : string)
    (log : list Event) :
  exists text log', zipLoop E fs acc log = (Resolved (acc ++ text), log').
Proof.
  revert acc log. induction fs as [|[filename [dir content]] rest IH]; intros acc log.
  - exists "", log. simpl. by rewrite append_nil_r.
  - destruct dir; [apply IH|]. rewrite zipLoop_cons_file.
    destruct (IH ((acc ++ fileHeader filename)
                    ++ pieceOf (entryOutcome E filename content log).1)
                 (entryOutcome E filename content log).2) as (text & log' & ->).
    eexists _, log'. by rewrite !append_assoc.
Qed.

Lemma zipLoop_app (before after : list (string * ZipObject Blob)) (acc : string)
    (log : list Event) :
  exists text,
    zipLoop E before acc log = (Resolved (acc ++ text), (zipLoop E before acc log).2) /\
    zipLoop E (before ++ after)%list acc log
    = zipLoop E after (acc ++ text) (zipLoop E before acc log).2.
Proof.
  revert acc log. induction before as [|[filename [dir content]] rest IH]; intros acc log.
  - exists "". simpl. by rewrite append_nil_r.
  - destruct dir; [apply IH|]. rewrite <- app_comm_cons, !zipLoop_cons_file.
    destruct (IH ((acc ++ fileHeader filename)
                    ++ pieceOf (entryOutcome E filename content log).1)
                 (entryOutcome E filename content log).2) as (text & Hrest & Happ).
    eexists. rewrite Happ, Hrest at 1. rewrite !append_assoc. done.
Qed.

(** Every file entry of an archive leaves its header and its piece in the
    combined text, whatever happens to the entries around it. *)
Lemma zipLoop_entry (before after : list (string * ZipObject Blob))
    (filename : string) (content : Outcome Blob) (acc : string) (log : list Event) :
  exists text1 text3 log',
    zipLoop E (before ++ (filename, mkZipObject false content) :: after)%list acc log
    = (Resolved
         (acc ++ text1 ++ fileHeader filename
            ++ pieceOf (entryOutcome E filename content (zipLoop E before acc log).2).1
            ++ text3), log').
Proof.
  destruct (zipLoop_app before ((filename, mkZipObject false content) :: after) acc log)
    as (text1 & _ & ->).
  rewrite zipLoop_cons_file.
  set (log1 := (zipLoop E before acc log).2).
  set (piece := pieceOf (entryOutcome E filename content log1).1).
  destruct (zipLoop_resolves after (((acc ++ text1) ++ fileHeader filename) ++ piece)
              (entryOutcome E filename content log1).2) as (text3 & log' & ->).
  exists text1, text3, log'. by rewrite !append_assoc.
Qed.

(** [filename.split('.').pop()] of a name with a dot before a dot-free end. *)
Lemma split_snoc (pre rest : string) :
  split "." rest = [rest] ->
  exists l, split "." (pre ++ "." ++ rest) = (l ++ [rest])%list /\ l <> [].
Proof.
  intros Hrest. induction pre as [|a pre (l & IH & Hl)].
  - exists [""]. rewrite append_nil_l. change ("." ++ rest) with (String "." rest).
    simpl. by rewrite Hrest.
  - rewrite append_cons. simpl. rewrite IH. destruct (Ascii.eqb a ".").
    + by exists ("" :: l).
    + destruct l as [|h t]; [done|]. by exists (String a h :: t).
Qed.

Lemma extOf_suffix (pre rest : string) :
  split "." rest = [rest] -> extOf (pre ++ "." ++ rest) = toLowerCase rest.
Proof.
  intros Hrest. destruct (split_snoc pre rest Hrest) as (l & Hsplit & _).
  unfold extOf, pop. by rewrite Hsplit, last_snoc.
Qed.




End Archive.

(** C2: once the container of an archive opens, the outcome of the archive is
    a success, and every file entry leaves its header followed by its own
    piece in the combined text: the extracted text if its extraction
    succeeded, the line "(Không thể trích xuất file này trong ZIP: <error>)"
    if it failed. A failing entry therefore costs no other entry its text. *)
Theorem archive_entry_isolation
    (E : Externals) (file : File) (sz : N) (bytes : string)
    (files : list (string * ZipObject Blob)) (log : list Event) :
  blob file = Container sz bytes files ->
  exists combinedText log',
    processZipFile E file log = (Resolved combinedText, log') /\
    forall before filename content after,
      files = (before ++ (filename, mkZipObject false content) :: after)%list ->
      let reached := (zipLoop E before (archiveHeader (name file)) log).2 in
      match (entryOutcome E filename content reached).1 with
      | Resolved extracted =>
          includes combinedText (fileHeader filename ++ extracted)
      | Rejected e =>
          includes combinedText
            (fileHeader filename
               ++ "(Không thể trích xuất file này trong ZIP: " ++ thrownToString e ++ ")" ++ LF)
      end.
Proof.
  intros Hblob.
  rewrite (processZipFile_Container E file sz bytes files log Hblob).
  generalize (archiveHeader (name file)). intros acc.
  exists (pieceOf (zipLoop E files acc log).1), (zipLoop E files acc log).2.
  split.
  - by destruct (zipLoop_resolves E files acc log) as (text & log' & ->).
  - intros before filename content after -> reached.
    destruct (zipLoop_entry E before after filename content acc log)
      as (text1 & text3 & log' & ->).
    fold reached. cbn [fst pieceOf].
    assert (includes
              (acc ++ text1 ++ fileHeader filename
                 ++ pieceOf (entryOutcome E filename content reached).1 ++ text3)
              (fileHeader filename ++ pieceOf (entryOutcome E filename content reached).1))
      as Hincl.
    { exists (acc ++ text1), text3. by rewrite !append_assoc. }
    by destruct (entryOutcome E filename content reached).1.
Qed.

Lemma archive_entry_isolation_witness :
  exists combinedText log',
    processZipFile Sample.env Sample.bundle [] = (Resolved combinedText, log') /\
    forall before filename content after,
      Sample.bundleFiles
      = (before ++ (filename, mkZipObject false content) :: after)%list ->
      let reached := (zipLoop Sample.env before (archiveHeader "bundle.zip") []).2 in
      match (entryOutcome Sample.env filename content reached).1 with
      | Resolved extracted =>
          includes combinedText (fileHeader filename ++ extracted)
      | Rejected e =>
          includes combinedText
            (fileHeader filename
               ++ "(Không thể trích xuất file này trong ZIP: " ++ thrownToString e ++ ")" ++ LF)
      end.
Proof.
  exact (archive_entry_isolation Sample.env Sample.bundle 300 "PK" Sample.bundleFiles []
           eq_refl).
Defined.

(** The archive of the witness, in full: the texts of entries 1 and 3 around
    the placeholder of the corrupt entry 2. *)
Example three_entries_second_corrupt :
  processZipFile Sample.env Sample.bundle []
  = (Resolved
       ("--- ARCHIVE: bundle.zip ---" ++ LF
        ++ LF ++ "--- FILE: a.txt ---" ++ LF ++ "alpha"
        ++ LF ++ "--- FILE: b.txt ---" ++ LF
        ++ "(Không thể trích xuất file này trong ZIP: Error: Corrupted zip : CRC32 mismatch)" ++ LF
        ++ LF ++ "--- FILE: c.txt ---" ++ LF ++ "gamma"), []).
Proof. by vm_compute. Qed.




Example nested_archive_in_full :
  processFile Sample.env
    (mkFile "outer.zip" "application/zip"
       (Container 400 "PK"
          [ ("inner.zip",
             mkZipObject false
               (Resolved (Container 200 "PK" [("notes.txt", Sample.textEntry "hello")]))) ]))
    []
  = (Resolved
       ("--- ARCHIVE: outer.zip ---" ++ LF
        ++ LF ++ "--- FILE: inner.zip ---" ++ LF
        ++ "--- ARCHIVE: inner.zip ---" ++ LF
        ++ LF ++ "--- FILE: notes.txt ---" ++ LF ++ "hello"), []).
Proof. by vm_compute. Qed.

(** ** Media types of archive entries *)

Section EntryTypes.

Lemma getMimeFromExt_table :
  getMimeFromExt "png" = VString "image/png" /\
  getMimeFromExt "jpg" = VString "image/jpeg" /\
  getMimeFromExt "pdf" = VString "application/pdf" /\
  getMimeFromExt "txt" = VString "text/plain" /\
  getMimeFromExt "xml" = VString "text/xml" /\
  getMimeFromExt "json" = VString "application/json".
Proof. by vm_compute. Qed.

Lemma getMimeFromExt_examples :
  Forall (fun ext => getMimeFromExt ext = VString "application/octet-stream")
         ["jpeg"; "mp3"; "mp4"; "html"; "webp"; "zip"; "docx"; ""].
Proof. repeat constructor. Qed.

(** An extension that names neither an own nor an inherited property of the
    table yields the default. *)
Lemma getMimeFromExt_default (ext : string) :
  ext ∉ ["png"; "jpg"; "pdf"; "txt"; "xml"; "json"] ->
  objectPrototype !! ext = None ->
  getMimeFromExt ext = VString "application/octet-stream".
Proof.
  intros Hown Hproto. unfold getMimeFromExt, mapGet.
  assert (mimeMap !! ext = None) as ->
      by (by apply not_elem_of_list_to_map_1).
  by rewrite Hproto.
Qed.

Ltac enumerate H :=
  repeat (apply elem_of_cons in H as [->|H]); [..|by apply elem_of_nil in H].

(** Whatever the table returns, only [png], [jpg] and [pdf] give an entry a
    media type the remote extractor supports. *)
Lemma entry_type_not_remote (ext : string) :
  ext ∉ ["png"; "jpg"; "pdf"] ->
  isGeminiSupported (fileTypeOf (getMimeFromExt ext)) = false.
Proof.
  intros Hext.
  destruct (decide (ext ∈ ["png"; "jpg"; "pdf"; "txt"; "xml"; "json"])) as [Hown|Hown].
  { enumerate Hown; try done; exfalso; apply Hext; set_solver. }
  destruct (decide (ext ∈ (map_to_list objectPrototype).*1)) as [Hproto|Hproto].
  { vm_compute map_to_list in Hproto. simpl in Hproto. enumerate Hproto; done. }
  rewrite getMimeFromExt_default; [done..|].
  apply not_elem_of_list_to_map_1 in Hproto.
  by rewrite list_to_map_to_list in Hproto.
Qed.

End EntryTypes.

(** C9 at a failing input: for the extension [constructor] the table does not
    return the default but the function inherited from [Object.prototype], so
    the entry's media type is that function's text; the dispatcher then
    reports it in the unsupported-format error. *)
Theorem inherited_property_as_media_type :
  getMimeFromExt "constructor" = VNativeFunction "Object" /\
  entryType "notes.constructor" = "function object() { [native code] }" /\
  entryType "notes.constructor" <> "application/octet-stream" /\
  processZipFile Sample.env
    (mkFile "bundle.zip" "application/zip"
       (Container 100 "PK" [("notes.constructor", Sample.textEntry "hello")])) []
  = (Resolved
       ("--- ARCHIVE: bundle.zip ---" ++ LF
        ++ LF ++ "--- FILE: notes.constructor ---" ++ LF
        ++ "(Không thể trích xuất file này trong ZIP: Error: Định dạng file không được hỗ trợ: function object() { [native code] })"
        ++ LF), []).
Proof. by vm_compute. Qed.

(** * Further properties of the pipeline *)

(** Membership in an explicit list that holds no equal element is absurd. *)
Ltac refute_elem H :=
  exfalso;
  repeat (apply elem_of_cons in H as [H|H]; [discriminate H|]);
  by apply elem_of_nil in H.

(** ** The remote adapter *)

(** X1: the adapter resolves exactly when a credential is configured and the
    service answers with a non-empty text, which it returns unchanged; it
    sends one request when a credential is configured and none otherwise,
    whatever the outcome. *)
Theorem extract_resolves_iff
    (E : Externals) (fileBase64 mimeType text : string) (log log' : list Event) :
  let log1 := ExtractCall mimeType fileBase64 :: log in
  (extractWithGemini E fileBase64 mimeType log = (Resolved text, log') <->
   apiKey E <> "" /\
   generateContent E log1 mimeType fileBase64 = Resolved (Some text) /\
   text <> "" /\
   log' = NetworkRequest mimeType fileBase64 :: log1) /\
  (extractWithGemini E fileBase64 mimeType log).2
  = if String.eqb (apiKey E) "" then log1
    else NetworkRequest mimeType fileBase64 :: log1.
Proof.
  intros log1. rewrite extractWithGemini_unfold. fold log1. cbv zeta.
  destruct (String.eqb_spec (apiKey E) "") as [Hkey|Hkey].
  - split; [|done]. split; [done|]. by intros [? _].
  - destruct (generateContent E log1 mimeType fileBase64) as [[t|]|cause].
    + destruct (String.eqb_spec t "") as [->|Ht].
      * split; [|done]. split; [done|]. intros (_ & [= <-] & Hne & _). done.
      * split; [|done]. split.
        -- intros [= <- <-]. done.
        -- intros (_ & [= <-] & _ & ->). done.
    + split; [|done]. split; [done|]. by intros (_ & ? & _).
    + split; [|done]. split; [done|]. by intros (_ & ? & _).
Qed.

(** ** Which files reach the remote service *)

Section LocalStrategies.

Context (E : Externals).

Lemma readSlides_log (files : list (string * ZipObject Blob)) (slides : list string)
    (fullText : string) (log : list Event) :
  (readSlides E files slides fullText log).2 = log.
Proof.
  revert fullText. induction slides as [|slide rest IH]; intros fullText; [done|].
  simpl. unfold bind, asyncString.
  destruct (lookupFile files slide) as [[dir [b|e]]|]; simpl; [apply IH|done..].
Qed.

Lemma processPptxAsZip_log (file : File) (log : list Event) :
  (processPptxAsZip E file log).2 = log.
Proof.
  unfold processPptxAsZip, tryCatch, bind, loadAsync.
  destruct (blob file) as [sz bytes|sz bytes files]; [done|]. unfold ret at 1.
  pose proof (readSlides_log files (slideFilesOf files) "" log) as Hlog.
  by destruct (readSlides E files (slideFilesOf files) "" log) as [[fullText|e] log1].
Qed.

Lemma local_branches_log (file : File) (log : list Event) :
  (wordBranch E file log).2 = log /\
  (spreadsheetBranch E file log).2 = log /\
  (textBranch E file log).2 = log.
Proof.
  unfold wordBranch, spreadsheetBranch, textBranch, bind, settle, ret.
  repeat split.
  - destruct (readFileAsArrayBuffer E _); [|done]. by destruct (extractRawText E _).
  - destruct (readFileAsArrayBuffer E _); [|done]. by destruct (XLSX_read E _).
  - destruct (readFileAsText E _); [|done]. by destruct (String.eqb _ _).
Qed.

Lemma processFile_local_log (file : File) (log : list Event) :
  classify (type file) (name file)
    ∈ [WordDocument; Spreadsheet; PresentationPackage; PlainOrHtmlText; Unsupported] ->
  (processFile E file log).2 = log.
Proof.
  intros Hclass. rewrite processFile_run.
  destruct (local_branches_log file log) as (Hword & Hsheet & Htext).
  destruct (classify (type file) (name file)); simpl;
    first [ done | apply processPptxAsZip_log | by refute_elem Hclass ].
Qed.

End LocalStrategies.

(** X2: a file dispatched to the Word decoder, the spreadsheet decoder, the
    presentation extractor or the text reader, and a file of an unsupported
    format, is settled without entering the remote adapter or sending a
    request: the log of remote calls is unchanged. *)
Theorem local_strategies_make_no_call (E : Externals) (file : File) (log : list Event) :
  classify (type file) (name file)
    ∈ [WordDocument; Spreadsheet; PresentationPackage; PlainOrHtmlText; Unsupported] ->
  (processFile E file log).2 = log.
Proof. apply processFile_local_log. Qed.

Lemma local_strategies_make_no_call_witness :
  (processFile Sample.env (mkFile "sales.xlsx" "" (Opaque 4 "PK"))
     [ExtractCall "image/png" "AAAA"]).2
  = [ExtractCall "image/png" "AAAA"].
Proof.
  apply (local_strategies_make_no_call Sample.env).
  apply list_elem_of_In. vm_compute. auto.
Defined.

Section EntryRouting.

Lemma classify_remote_inv (mimeType fname : string) :
  classify mimeType fname = RemoteMultimodal ->
  isGeminiSupported mimeType = true /\ endsWith fname ".zip" = false.
Proof.
  unfold classify.
  destruct (String.eqb mimeType "application/zip"); [done|].
  destruct (endsWith fname ".zip"); [done|].
  destruct (isGeminiSupported mimeType); [done|].
  repeat match goal with
         | |- context [if ?c then _ else _] => destruct c; [done|]
         end; done.
Qed.

Lemma extOf_zip (filename : string) :
  endsWith filename ".zip" = true -> extOf filename = "zip".
Proof.
  intros [pre ->]%endsWith_spec.
  change (pre ++ ".zip") with (pre ++ "." ++ "zip"). by rewrite extOf_suffix.
Qed.

Lemma lowerChar_dot (a : ascii) : Ascii.eqb (lowerChar a) "." = Ascii.eqb a ".".
Proof. by destruct a as [[] [] [] [] [] [] [] []]. Qed.

Lemma lowerChar_idemp (a : ascii) : lowerChar (lowerChar a) = lowerChar a.
Proof. by destruct a as [[] [] [] [] [] [] [] []]. Qed.

Lemma toLowerCase_idemp (s : string) : toLowerCase (toLowerCase s) = toLowerCase s.
Proof. induction s as [|a s IH]; simpl; [done|]. by rewrite lowerChar_idemp, IH. Qed.

Lemma split_toLowerCase (s : string) :
  split "." (toLowerCase s) = toLowerCase <$> split "." s.
Proof.
  induction s as [|a s IH]; simpl; [done|].
  rewrite lowerChar_dot, IH. destruct (Ascii.eqb a "."); [done|].
  by destruct (split "." s).
Qed.

Lemma last_fmap {A B} (f : A -> B) (l : list A) : last (f <$> l) = f <$> last l.
Proof.
  induction l as [|x l IH]; [done|]. destruct l as [|y l]; [done|].
  exact IH.
Qed.

Lemma extOf_toLowerCase (filename : string) :
  extOf (toLowerCase filename) = extOf filename.
Proof.
  unfold extOf, pop. rewrite split_toLowerCase, last_fmap.
  destruct (last (split "." filename)) as [ext|]; simpl; [|done].
  by rewrite toLowerCase_idemp.
Qed.

End EntryRouting.

(** X3: an archive entry is dispatched to the remote extractor exactly when
    the lower-cased extension of its name is [png], [jpg] or [pdf]; entries
    such as [.jpeg], [.webp], [.mp3] or [.mp4] never are. *)
Theorem entry_routed_remote_iff (filename : string) :
  classify (entryType filename) filename = RemoteMultimodal <->
  extOf filename ∈ ["png"; "jpg"; "pdf"].
Proof.
  split.
  - intros [Hsup _]%classify_remote_inv.
    destruct (decide (extOf filename ∈ ["png"; "jpg"; "pdf"])) as [|Hext]; [done|].
    unfold entryType in Hsup. by rewrite (entry_type_not_remote _ Hext) in Hsup.
  - intros Hext.
    assert (endsWith filename ".zip" = false) as Hzip.
    { destruct (endsWith filename ".zip") eqn:Hzip; [|done].
      rewrite (extOf_zip filename Hzip) in Hext. by refute_elem Hext. }
    apply classify_remote; [|done]. unfold entryType.
    repeat (apply elem_of_cons in Hext as [Hext|Hext]; [by rewrite Hext|]).
    by apply elem_of_nil in Hext.
Qed.

(** X4: the extension of an archive entry is read without regard to case:
    the media type inferred for a name is the one inferred for the name in
    lower case. *)
Theorem entry_type_ignores_case (filename : string) :
  entryType (toLowerCase filename) = entryType filename.
Proof. unfold entryType. by rewrite extOf_toLowerCase. Qed.

(** X5: the table assigns [text/xml] to [.xml] entries and [application/json]
    to [.json] entries, but no rule of the dispatcher accepts these types: such
    an entry is rejected as an unsupported format, carrying that type, without
    any remote call. *)
Theorem xml_json_entries_unsupported
    (E : Externals) (filename : string) (b : Blob) (log : list Event) :
  (endsWith filename ".xml" = true ->
   entryOutcome E filename (Resolved b) log
   = (Rejected (unsupportedError "text/xml"), log)) /\
  (endsWith filename ".json" = true ->
   entryOutcome E filename (Resolved b) log
   = (Rejected (unsupportedError "application/json"), log)).
Proof.
  split; intros Hsuf; unfold entryOutcome; rewrite processFile_run; simpl.
  - assert (entryType filename = "text/xml") as ->.
    { apply endsWith_spec in Hsuf as [pre ->]. unfold entryType.
      change (pre ++ ".xml") with (pre ++ "." ++ "xml"). by rewrite extOf_suffix. }
    unfold classify.
    assert (endsWith filename ".zip" = false) as -> by discharge_suffix.
    assert (endsWith filename ".docx" = false) as -> by discharge_suffix.
    assert (endsWith filename ".xlsx" = false) as -> by discharge_suffix.
    assert (endsWith filename ".pptx" = false) as -> by discharge_suffix.
    assert (endsWith filename ".txt" = false) as -> by discharge_suffix.
    assert (endsWith filename ".md" = false) as -> by discharge_suffix.
    assert (endsWith filename ".epub" = false) as -> by discharge_suffix.
    done.
  - assert (entryType filename = "application/json") as ->.
    { apply endsWith_spec in Hsuf as [pre ->]. unfold entryType.
      change (pre ++ ".json") with (pre ++ "." ++ "json"). by rewrite extOf_suffix. }
    unfold classify.
    assert (endsWith filename ".zip" = false) as -> by discharge_suffix.
    assert (endsWith filename ".docx" = false) as -> by discharge_suffix.
    assert (endsWith filename ".xlsx" = false) as -> by discharge_suffix.
    assert (endsWith filename ".pptx" = false) as -> by discharge_suffix.
    assert (endsWith filename ".txt" = false) as -> by discharge_suffix.
    assert (endsWith filename ".md" = false) as -> by discharge_suffix.
    assert (endsWith filename ".epub" = false) as -> by discharge_suffix.
    done.
Qed.

Lemma xml_json_entries_unsupported_witness :
  entryOutcome Sample.env "word/document.xml" (Resolved (Opaque 9 "<w:body/>")) []
  = (Rejected (unsupportedError "text/xml"), []) /\
  entryOutcome Sample.env "package.json" (Resolved (Opaque 2 "{}")) []
  = (Rejected (unsupportedError "application/json"), []).
Proof.
  split.
  - apply (xml_json_entries_unsupported Sample.env "word/document.xml"). reflexivity.
  - apply (xml_json_entries_unsupported Sample.env "package.json"). reflexivity.
Defined.

(** ** The declared media types against the dispatcher *)

Ltac declared_case fname :=
  split;
  [ intros Hnot;
    first
      [ by (exfalso; apply Hnot; apply list_elem_of_In; simpl; tauto)
      | clear Hnot; unfold classify;
        match goal with
        | |- context [isGeminiSupported ?t] =>
            let v := eval vm_compute in (isGeminiSupported t) in
            change (isGeminiSupported t) with v
        end;
        simpl;
        repeat match goal with
               | |- context [endsWith fname ?suf] => destruct (endsWith fname suf); simpl
               end;
        done ]
  | intros Hthree; first [ reflexivity | by refute_elem Hthree ] ].

(** X6: every media type the enum [SupportedMimeTypes] declares is accepted by
    the dispatcher under any file name, except [video/quicktime],
    [video/x-msvideo] and [video/x-ms-wmv]: the remote table lists
    [video/mov], [video/avi] and [video/wmv] instead, so a file of one of these
    three types is rejected as unsupported unless its name matches a rule. *)
Theorem declared_types_dispatch (mimeType fname : string) :
  mimeType ∈ SupportedMimeTypes ->
  (mimeType ∉ ["video/quicktime"; "video/x-msvideo"; "video/x-ms-wmv"] ->
   classify mimeType fname <> Unsupported) /\
  (mimeType ∈ ["video/quicktime"; "video/x-msvideo"; "video/x-ms-wmv"] ->
   classify mimeType fname = classify "" fname).
Proof.
  intros Hdecl. unfold SupportedMimeTypes in Hdecl.
  repeat (apply elem_of_cons in Hdecl as [->|Hdecl]; [declared_case fname|]).
  by apply elem_of_nil in Hdecl.
Qed.

Lemma declared_types_dispatch_witness :
  (("video/quicktime" : string) ∉ ["video/quicktime"; "video/x-msvideo"; "video/x-ms-wmv"] ->
   classify "video/quicktime" "holiday.mov" <> Unsupported) /\
  (("video/quicktime" : string) ∈ ["video/quicktime"; "video/x-msvideo"; "video/x-ms-wmv"] ->
   classify "video/quicktime" "holiday.mov" = classify "" "holiday.mov").
Proof.
  apply (declared_types_dispatch "video/quicktime" "holiday.mov").
  apply list_elem_of_In. vm_compute. auto 20.
Defined.

Example quicktime_is_unsupported :
  classify "video/quicktime" "holiday.mov" = Unsupported.
Proof. reflexivity. Qed.

(** ** More on the archive expander *)

Section ArchiveFacts.

Context (E : Externals).

Lemma zipLoop_fileEntries (files : list (string * ZipObject Blob)) (acc : string)
    (log : list Event) :
  zipLoop E (fileEntries files) acc log = zipLoop E files acc log.
Proof.
  revert acc log. induction files as [|[filename [dir content]] rest IH]; intros acc log;
    [done|].
  unfold fileEntries. simpl. destruct dir; simpl; [apply IH|].
  fold (fileEntries rest). unfold bind.
  destruct (tryCatch _ _ log) as [[piece|e] log1]; [apply IH|done].
Qed.

(** A predicate on blobs holds of every blob if it holds of the opaque ones
    and of a container whenever it holds of the blobs of its entries. *)
Lemma Blob_nested_ind (P : Blob -> Prop) :
  (forall sz bytes, P (Opaque sz bytes)) ->
  (forall sz bytes files,
     Forall (fun entry =>
               match entry with
               | (_, mkZipObject _ (Resolved fileData)) => P fileData
               | _ => True
               end) files ->
     P (Container sz bytes files)) ->
  forall b, P b.
Proof.
  intros Hopaque Hcontainer. fix prove 1.
  intros [sz bytes|sz bytes files]; [apply Hopaque|].
  apply Hcontainer.
  induction files as [|[filename [dir content]] rest IH]; [constructor|].
  constructor; [|exact IH].
  destruct content as [fileData|e]; [apply prove|exact I].
Qed.

(** The loop leaves the log alone if the dispatch of every file entry does. *)
Lemma zipLoop_log (files : list (string * ZipObject Blob)) (acc : string)
    (log : list Event) :
  Forall (fun entry =>
            match entry with
            | (filename, mkZipObject dir content) =>
                dir = false -> (entryOutcome E filename content log).2 = log
            end) files ->
  (zipLoop E files acc log).2 = log.
Proof.
  intros Hall. revert acc.
  induction Hall as [|[filename [dir content]] rest Hentry _ IH]; intros acc; [done|].
  destruct dir; [apply IH|]. rewrite zipLoop_cons_file.
  rewrite (Hentry eq_refl). apply IH.
Qed.

Lemma processFile_Archive_zipLoop (file : File) (log : list Event) :
  classify (type file) (name file) = Archive
  \/ classify (type file) (name file) = ArchiveLikeBook ->
  processFile E file log
  = match blob file with
    | Opaque _ bytes => (Rejected (zipLoadError E bytes), log)
    | Container _ _ files => zipLoop E files (archiveHeader (name file)) log
    end.
Proof.
  intros Hclass. rewrite processFile_run.
  assert (run E (classify (type file) (name file)) file = processZipFile E file) as ->
      by (by destruct Hclass as [-> | ->]).
  destruct (blob file) as [sz bytes|sz bytes files] eqn:Hblob.
  - unfold processZipFile, processZipFileWith. by rewrite Hblob.
  - by apply (processZipFile_Container E file sz bytes files).
Qed.

Lemma localOnly_log (b : Blob) :
  forall fname mimeType log,
    localOnly b = true ->
    isGeminiSupported mimeType = false ->
    (processFile E (mkFile fname mimeType b) log).2 = log.
Proof.
  induction b as [sz bytes|sz bytes files IH] using Blob_nested_ind;
    intros fname mimeType log Hlocal Hsup.
  - destruct (classify mimeType fname) eqn:Hclass.
    1,7: rewrite processFile_Archive_zipLoop by (simpl; auto); done.
    1: { apply classify_remote_inv in Hclass as [Hclass _]. congruence. }
    all: apply processFile_local_log; simpl; rewrite Hclass;
      apply list_elem_of_In; simpl; auto 10.
  - destruct (classify mimeType fname) eqn:Hclass.
    2: { apply classify_remote_inv in Hclass as [Hclass _]. congruence. }
    2-5,7: apply processFile_local_log; simpl; rewrite Hclass;
      apply list_elem_of_In; simpl; auto 10.
    all: rewrite processFile_Archive_zipLoop by (simpl; auto); simpl;
      apply zipLoop_log; simpl in Hlocal;
      rewrite forallb_forall in Hlocal;
      rewrite Forall_forall in IH; apply Forall_forall;
      intros [filename [dir [fileData|e]]] Hin Hdir; subst dir; [|done];
      specialize (IH _ Hin); apply list_elem_of_In in Hin;
      specialize (Hlocal _ Hin); simpl in Hlocal, IH;
      apply andb_true_iff in Hlocal as [Hext Hsub];
      apply negb_true_iff, bool_decide_eq_false in Hext;
      simpl; apply IH; [done|by apply entry_type_not_remote].
Qed.

End ArchiveFacts.

(** X7: directory entries contribute nothing: an archive yields the same
    text, and makes the same calls, as the archive of its file entries. *)
Theorem zip_directories_skipped
    (E : Externals) (fname mimeType : string) (sz : N) (bytes : string)
    (files : list (string * ZipObject Blob)) (log : list Event) :
  processZipFile E (mkFile fname mimeType (Container sz bytes files)) log
  = processZipFile E (mkFile fname mimeType (Container sz bytes (fileEntries files))) log.
Proof.
  rewrite (processZipFile_Container E
             (mkFile fname mimeType (Container sz bytes files)) sz bytes files log eq_refl).
  rewrite (processZipFile_Container E
             (mkFile fname mimeType (Container sz bytes (fileEntries files)))
             sz bytes (fileEntries files) log eq_refl).
  simpl. by rewrite zipLoop_fileEntries.
Qed.

(** X8: the combined text follows the order in which [Object.keys] enumerates
    [contents.files] (which need not be the order of the archive's own
    directory): if the keys of one archive, so enumerated, continue those of
    another, its text begins with the text of the other, and the further
    entries are dispatched from the log the other left. *)
Theorem archive_text_extends
    (E : Externals) (fname mimeType : string) (sz : N) (bytes : string)
    (before after : list (string * ZipObject Blob)) (log : list Event) :
  exists text log1,
    processZipFile E (mkFile fname mimeType (Container sz bytes before)) log
    = (Resolved text, log1) /\
    processZipFile E (mkFile fname mimeType (Container sz bytes (before ++ after))) log
    = zipLoop E after text log1 /\
    exists text' log2,
      zipLoop E after text log1 = (Resolved text', log2) /\ beginsWith text' text.
Proof.
  rewrite (processZipFile_Container E
             (mkFile fname mimeType (Container sz bytes before)) sz bytes before log eq_refl).
  rewrite (processZipFile_Container E
             (mkFile fname mimeType (Container sz bytes (before ++ after)))
             sz bytes (before ++ after) log eq_refl).
  simpl. generalize (archiveHeader fname). intros acc.
  destruct (zipLoop_app E before after acc log) as (text & Hbefore & Happ).
  exists (acc ++ text), (zipLoop E before acc log).2.
  split; [done|]. split; [done|].
  destruct (zipLoop_resolves E after (acc ++ text) (zipLoop E before acc log).2)
    as (rest & log2 & ->).
  exists ((acc ++ text) ++ rest), log2. split; [done|]. by exists rest.
Qed.

(** X9: an archive fails as a whole only when its container does not open:
    then it is rejected with the error of the ZIP reader, before any header is
    written or any call made; an archive that opens always resolves, to a text
    that begins with the line "--- ARCHIVE: <name> ---". *)
Theorem archive_fails_iff_container_closed
    (E : Externals) (file : File) (log : list Event) :
  (forall sz bytes, blob file = Opaque sz bytes ->
     processZipFile E file log = (Rejected (zipLoadError E bytes), log)) /\
  (forall sz bytes files, blob file = Container sz bytes files ->
     exists text log',
       processZipFile E file log = (Resolved text, log') /\
       beginsWith text ("--- ARCHIVE: " ++ name file ++ " ---" ++ LF)).
Proof.
  split.
  - intros sz bytes Hblob. unfold processZipFile, processZipFileWith. by rewrite Hblob.
  - intros sz bytes files Hblob.
    rewrite (processZipFile_Container E file sz bytes files log Hblob).
    destruct (zipLoop_resolves E files (archiveHeader (name file)) log)
      as (rest & log' & ->).
    eexists _, log'. split; [done|]. exists rest. unfold archiveHeader.
    by rewrite !append_assoc.
Qed.

Lemma archive_fails_iff_container_closed_witness :
  processZipFile Sample.env (mkFile "notes.zip" "application/zip" (Opaque 5 "hello")) []
  = (Rejected (newError "Can't find end of central directory"), []) /\
  exists text log',
    processZipFile Sample.env Sample.bundle [] = (Resolved text, log') /\
    beginsWith text ("--- ARCHIVE: " ++ "bundle.zip" ++ " ---" ++ LF).
Proof.
  split.
  - exact (proj1 (archive_fails_iff_container_closed Sample.env
                    (mkFile "notes.zip" "application/zip" (Opaque 5 "hello")) [])
             5%N "hello" eq_refl).
  - exact (proj2 (archive_fails_iff_container_closed Sample.env Sample.bundle [])
             300%N "PK" Sample.bundleFiles eq_refl).
Defined.

(** X10: an archive that has, at every depth of nesting, no file entry with
    the extension [png], [jpg] or [pdf] is expanded without any remote call,
    whatever the entries are and whether their extraction succeeds; the same
    holds of any file of a type the remote extractor does not support. *)
Theorem local_archive_makes_no_call (E : Externals) (file : File) (log : list Event) :
  localOnly (blob file) = true ->
  isGeminiSupported (type file) = false ->
  (processFile E file log).2 = log.
Proof.
  destruct file as [fname mimeType b]. simpl. apply localOnly_log.
Qed.

Lemma local_archive_makes_no_call_witness :
  (processFile Sample.env Sample.bundle [ExtractCall "image/png" "AAAA"]).2
  = [ExtractCall "image/png" "AAAA"].
Proof.
  apply (local_archive_makes_no_call Sample.env Sample.bundle); reflexivity.
Defined.

(** ** More on the presentation extractor *)

Section PresentationFacts.

Context (E : Externals).

Lemma readSlides_rejected (files : list (string * ZipObject Blob))
    (slides : list string) (fullText : string) (log : list Event) :
  Exists (fun slide => slideXml files slide = None) slides ->
  exists e, readSlides E files slides fullText log = (Rejected e, log).
Proof.
  intros Hbad. revert fullText.
  induction Hbad as [slide rest Hnone|slide rest _ IH]; intros fullText; simpl; unfold bind.
  - unfold slideXml in Hnone. unfold asyncString.
    destruct (lookupFile files slide) as [[dir [b|e]]|]; [done|by eexists..].
  - unfold asyncString.
    destruct (lookupFile files slide) as [[dir [b|e]]|]; [apply IH|by eexists..].
Qed.

Lemma slides_readable_or_not (files : list (string * ZipObject Blob))
    (slides : list string) :
  (exists xmls, Forall2 (fun slide xml => slideXml files slide = Some xml) slides xmls)
  \/ Exists (fun slide => slideXml files slide = None) slides.
Proof.
  induction slides as [|slide rest [[xmls IH]|IH]].
  - left. by exists [].
  - destruct (slideXml files slide) as [xml|] eqn:Hxml.
    + left. exists (xml :: xmls). by constructor.
    + right. by constructor.
  - right. by constructor.
Qed.

Lemma processPptxAsZip_rejected (file : File) (log : list Event) :
  match blob file with
  | Opaque _ _ => True
  | Container _ _ files =>
      Exists (fun slide => slideXml files slide = None) (slideFilesOf files)
  end ->
  processPptxAsZip E file log = (Rejected (newError "Lỗi đọc file PPTX."), log).
Proof.
  unfold processPptxAsZip, tryCatch, bind, loadAsync.
  destruct (blob file) as [sz bytes|sz bytes files]; [done|]. intros Hbad.
  unfold ret at 1.
  by destruct (readSlides_rejected files (slideFilesOf files) "" log Hbad) as [e ->].
Qed.

Lemma joinAll_nonempty (xml : string) (xmls : list string) :
  joinAll (slideOutput E <$> (xml :: xmls)) <> "".
Proof.
  simpl. intros Hempty. by apply append_eq_nil, slideOutput_nonempty in Hempty.
Qed.

End PresentationFacts.

(** X11: the presentation extractor fails exactly when the container does not
    open or a slide entry cannot be read, and every failure is reported as the
    same error "Lỗi đọc file PPTX.", whatever its cause; no remote call is
    made. *)
Theorem pptx_failure_is_generic (E : Externals) (file : File) (log : list Event) :
  (forall e log',
     processPptxAsZip E file log = (Rejected e, log') ->
     e = newError "Lỗi đọc file PPTX." /\ log' = log) /\
  (processPptxAsZip E file log = (Rejected (newError "Lỗi đọc file PPTX."), log) <->
   match blob file with
   | Opaque _ _ => True
   | Container _ _ files =>
       Exists (fun slide => slideXml files slide = None) (slideFilesOf files)
   end).
Proof.
  split.
  - intros e log' Hrej. pose proof (processPptxAsZip_log E file log) as Hlog.
    rewrite Hrej in Hlog. simpl in Hlog. split; [|done].
    revert Hrej. unfold processPptxAsZip, tryCatch, throw.
    destruct (bind _ _ log) as [[fullText|e'] log1]; [done|]. by intros [= <- _].
  - split; [|apply processPptxAsZip_rejected].
    intros Hrej. destruct (blob file) as [sz bytes|sz bytes files] eqn:Hblob; [done|].
    destruct (slides_readable_or_not files (slideFilesOf files)) as [[xmls Hread]|Hbad];
      [|done].
    by rewrite (processPptxAsZip_resolved E file sz bytes files xmls log Hblob Hread)
      in Hrej.
Qed.

(** X12: what the presentation extractor returns is never the empty text (a
    package without slides gives the marker, and every slide contributes at
    least a line), and it is computed without any remote call. *)
Theorem pptx_text_never_empty
    (E : Externals) (file : File) (log log' : list Event) (text : string) :
  processPptxAsZip E file log = (Resolved text, log') ->
  text <> "" /\ log' = log.
Proof.
  intros Hres. pose proof (processPptxAsZip_log E file log) as Hlog.
  rewrite Hres in Hlog. simpl in Hlog. split; [|done].
  destruct (blob file) as [sz bytes|sz bytes files] eqn:Hblob.
  - by rewrite (processPptxAsZip_rejected E file log) in Hres by (by rewrite Hblob).
  - destruct (slides_readable_or_not files (slideFilesOf files)) as [[xmls Hread]|Hbad].
    + rewrite (processPptxAsZip_resolved E file sz bytes files xmls log Hblob Hread)
        in Hres.
      injection Hres as <-. destruct xmls as [|xml xmls]; [done|].
      apply joinAll_nonempty.
    + by rewrite (processPptxAsZip_rejected E file log) in Hres by (by rewrite Hblob).
Qed.

Lemma pptx_text_never_empty_witness :
  "(Không tìm thấy nội dung văn bản trong slide)" <> "" /\ @nil Event = [].
Proof.
  apply (pptx_text_never_empty Sample.env Sample.emptyDeck [] []). reflexivity.
Defined.

(** ** The slide pattern and the sort key *)

Section SlidePattern.

Lemma spanDigits_sound (s : string) :
  s = (spanDigits s).1 ++ (spanDigits s).2 /\
  allDigits (spanDigits s).1 = true /\
  stopsDigits (spanDigits s).2 = true.
Proof.
  induction s as [|a s (IHs & IHd & IHr)]; simpl; [done|].
  destruct (isDigit a) eqn:Ha.
  - destruct (spanDigits s) as [d r]. simpl in *.
    rewrite append_cons, Ha. by rewrite <- IHs.
  - simpl. by rewrite Ha.
Qed.

Lemma spanDigits_complete (d r : string) :
  allDigits d = true -> stopsDigits r = true -> spanDigits (d ++ r) = (d, r).
Proof.
  intros Hd Hr. induction d as [|b d IH].
  - rewrite append_nil_l. destruct r as [|a r]; [done|].
    simpl in *. by rewrite (proj1 (negb_true_iff _) Hr).
  - simpl in Hd. apply andb_true_iff in Hd as [Hb Hd].
    rewrite append_cons. simpl. by rewrite Hb, (IH Hd).
Qed.

(** A match at the head of [s], spelled out. *)
Lemma matchAt_spec (lit s digits : string) :
  matchAt lit s = Some digits <->
  exists post,
    s = lit ++ digits ++ ".xml" ++ post /\ digits <> "" /\ allDigits digits = true.
Proof.
  unfold matchAt. split.
  - destruct (stripPrefix lit s) as [r|] eqn:Hlit; [|done].
    apply stripPrefix_spec in Hlit as ->.
    destruct (spanDigits_sound r) as (Hr & Hd & _).
    destruct (spanDigits r) as [d r']. cbn [fst snd] in *.
    destruct (String.eqb_spec d "") as [|Hne]; [done|].
    destruct (stripPrefix ".xml" r') as [post|] eqn:Hxml; [|done].
    apply stripPrefix_spec in Hxml as ->. intros [= <-].
    exists post. by rewrite <- Hr.
  - intros (post & -> & Hne & Hd).
    rewrite (proj2 (stripPrefix_spec lit _ _) eq_refl).
    rewrite (spanDigits_complete digits (".xml" ++ post) Hd eq_refl).
    rewrite (proj2 (String.eqb_neq _ _) Hne).
    by rewrite (proj2 (stripPrefix_spec ".xml" _ post) eq_refl).
Qed.

Lemma search_unfold (lit s : string) :
  search lit s =
  match matchAt lit s with
  | Some d => Some d
  | None => match s with
            | EmptyString => None
            | String _ s' => search lit s'
            end
  end.
Proof. by destruct s. Qed.

(** [search] succeeds exactly when some suffix of the string matches. *)
Lemma search_is_Some (lit s : string) :
  is_Some (search lit s) <->
  exists pre rest, s = pre ++ rest /\ is_Some (matchAt lit rest).
Proof.
  induction s as [|a s IH]; rewrite search_unfold.
  - destruct (matchAt lit "") as [d|] eqn:Hm.
    + split; [|by eauto]. intros _. exists "", "". by rewrite Hm.
    + split; [by intros [? ?]|]. intros (pre & rest & Hs & Hrest).
      destruct pre; [|done]. rewrite append_nil_l in Hs. subst rest.
      rewrite Hm in Hrest. by destruct Hrest.
  - destruct (matchAt lit (String a s)) as [d|] eqn:Hm.
    + split; [|by eauto]. intros _. exists "", (String a s). by rewrite Hm.
    + rewrite IH. split.
      * intros (pre & rest & -> & Hrest). by exists (String a pre), rest.
      * intros ([|b pre] & rest & Hs & Hrest).
        -- rewrite append_nil_l in Hs. subst rest. rewrite Hm in Hrest.
           by destruct Hrest.
        -- rewrite append_cons in Hs. injection Hs as _ ->. by exists pre, rest.
Qed.

Lemma search_skip (lit : string) (a : ascii) (s : string) :
  matchAt lit (String a s) = None -> search lit (String a s) = search lit s.
Proof. intros Hm. by rewrite search_unfold, Hm. Qed.

Lemma search_here (lit s digits : string) :
  matchAt lit s = Some digits -> search lit s = Some digits.
Proof. intros Hm. by rewrite search_unfold, Hm. Qed.

Lemma isSlidePath_spec (f : string) :
  isSlidePath f = true <->
  exists pre digits post,
    f = pre ++ "ppt/slides/slide" ++ digits ++ ".xml" ++ post /\
    digits <> "" /\ allDigits digits = true.
Proof.
  unfold isSlidePath.
  assert (is_Some (search "ppt/slides/slide" f) <->
          exists pre digits post,
            f = pre ++ "ppt/slides/slide" ++ digits ++ ".xml" ++ post /\
            digits <> "" /\ allDigits digits = true) as <-.
  { rewrite search_is_Some. split.
    - intros (pre & rest & -> & [digits Hm]).
      apply matchAt_spec in Hm as (post & -> & Hne & Hd). by exists pre, digits, post.
    - intros (pre & digits & post & -> & Hne & Hd).
      exists pre, ("ppt/slides/slide" ++ digits ++ ".xml" ++ post). split; [done|].
      exists digits. apply matchAt_spec. by exists post. }
  destruct (search "ppt/slides/slide" f); split; try done; by intros [? ?].
Qed.

End SlidePattern.

(** X13: the slide pattern is not anchored: a key is taken for a slide exactly
    when it contains, anywhere, "ppt/slides/slide" followed by one or more
    decimal digits and ".xml"; text before or after (a parent folder, a further
    extension) does not prevent the match. *)
Theorem slide_pattern_meaning (f : string) :
  isSlidePath f = true <->
  exists pre digits post,
    f = pre ++ "ppt/slides/slide" ++ digits ++ ".xml" ++ post /\
    digits <> "" /\ allDigits digits = true.
Proof. apply isSlidePath_spec. Qed.

(** X14: for an entry at the standard place, "ppt/slides/slide<digits>.xml",
    the key the slides are sorted by is [parseInt] of exactly those digits,
    which below 2^53 is the integer they denote. *)
Theorem standard_slide_number (digits : string) :
  digits <> "" ->
  allDigits digits = true ->
  isSlidePath ("ppt/slides/slide" ++ digits ++ ".xml") = true /\
  slideNumber ("ppt/slides/slide" ++ digits ++ ".xml") = parseInt digits /\
  ((decimalValue digits < 2 ^ 53)%N ->
   slideNumber ("ppt/slides/slide" ++ digits ++ ".xml") = Finite (decimalValue digits)).
Proof.
  intros Hne Hd.
  assert (slideDigits ("ppt/slides/slide" ++ digits ++ ".xml") = Some digits) as Hkey.
  { unfold slideDigits.
    change ("ppt/slides/slide" ++ digits ++ ".xml")
      with ("ppt/slides/" ++ "slide" ++ digits ++ ".xml").
    unfold append at 1. fold append.
    do 11 (rewrite search_skip by reflexivity).
    apply search_here, matchAt_spec. exists "". by rewrite append_nil_r. }
  split; [|split].
  - apply isSlidePath_spec. exists "", digits, "".
    by rewrite append_nil_l, append_nil_r.
  - unfold slideNumber. by rewrite Hkey.
  - intros Hsmall%N.ltb_lt. unfold slideNumber, parseInt, toDouble.
    by rewrite Hkey; simpl; rewrite Hsmall.
Qed.

Lemma standard_slide_number_witness :
  isSlidePath "ppt/slides/slide12.xml" = true /\
  slideNumber "ppt/slides/slide12.xml" = parseInt "12" /\
  ((decimalValue "12" < 2 ^ 53)%N ->
   slideNumber "ppt/slides/slide12.xml" = Finite (decimalValue "12")).
Proof.
  apply (standard_slide_number "12"); [discriminate | reflexivity].
Defined.

Section Stability.

Lemma numbered_Gt (n : JsNumber) (x y : string) :
  compareFn x y = Gt -> numbered n x = true -> numbered n y = false.
Proof.
  unfold compareFn, numbered, numEqb.
  destruct (slideNumber x) as [a|], (slideNumber y) as [b|], n as [c|]; try done.
  intros Hgt%N.compare_gt_iff Ha%N.eqb_eq. apply N.eqb_neq. lia.
Qed.

Lemma filter_insertBy (n : JsNumber) (x : string) (l : list string) :
  List.filter (numbered n) (insertBy compareFn x l)
  = List.filter (numbered n) (x :: l).
Proof.
  induction l as [|y l IH]; [done|]. cbn [insertBy].
  destruct (compareFn x y) eqn:Hcmp; [done..|].
  cbn [List.filter] in *. rewrite IH.
  destruct (numbered n x) eqn:Hx; [|done].
  by rewrite (numbered_Gt n x y Hcmp Hx).
Qed.

Lemma filter_sortBy (n : JsNumber) (l : list string) :
  List.filter (numbered n) (sortBy compareFn l) = List.filter (numbered n) l.
Proof.
  induction l as [|x l IH]; [done|]. cbn [sortBy foldr].
  fold (sortBy compareFn l). rewrite filter_insertBy.
  cbn [List.filter]. by rewrite IH.
Qed.

End Stability.

(** X15: the sort of the slides is stable: slide entries whose paths carry the
    same number are read in the order in which the package lists them. *)
Theorem slides_with_equal_number_keep_order
    (files : list (string * ZipObject Blob)) (n : JsNumber) :
  List.filter (numbered n) (slideFilesOf files)
  = List.filter (numbered n) (List.filter isSlidePath files.*1).
Proof. apply filter_sortBy. Qed.

(** ** App.tsx: the list of files *)

Section AppFacts.

Context (E : Externals).

Lemma mark_other (id0 text message : string) (f : App.ExtractedFile) :
  App.id f <> id0 ->
  App.markProcessing id0 f = f /\
  App.markCompleted id0 text f = f /\
  App.markError id0 message f = f.
Proof.
  intros Hne%String.eqb_neq.
  unfold App.markProcessing, App.markCompleted, App.markError. by rewrite Hne.
Qed.

Lemma fmap_mark_others (id0 text message : string) (l : list App.ExtractedFile) :
  Forall (fun f => App.id f <> id0) l ->
  App.markProcessing id0 <$> l = l /\
  App.markCompleted id0 text <$> l = l /\
  App.markError id0 message <$> l = l.
Proof.
  induction 1 as [|f l Hf _ (IH1 & IH2 & IH3)]; [done|].
  destruct (mark_other id0 text message f Hf) as (H1 & H2 & H3).
  rewrite !fmap_cons. by rewrite H1, H2, H3, IH1, IH2, IH3.
Qed.

(** The state after [processSingleFile], from the outcome of the dispatch. *)
Lemma processSingleFile_unfold (id0 : string) (file : File) (st : App.State)
    (log : list Event) :
  App.processSingleFile E id0 file st log =
  (match (processFile E file log).1 with
   | Resolved text =>
       App.mkState
         (App.markCompleted id0 text <$> (App.markProcessing id0 <$> App.files st))
         (App.keepOrSelect (App.selectedFileId st) id0)
   | Rejected e =>
       App.mkState
         (App.markError id0 (messageOrUnknown e)
            <$> (App.markProcessing id0 <$> App.files st))
         (App.selectedFileId st)
   end, (processFile E file log).2).
Proof.
  unfold App.processSingleFile.
  by destruct (processFile E file log) as [[text|e] log'].
Qed.

Lemma settle_new (id0 : string) (file : File) (text message : string) :
  App.markCompleted id0 text (App.markProcessing id0 (App.newExtractedFile id0 file))
  = App.settled id0 file (Resolved text) /\
  App.markError id0 message (App.markProcessing id0 (App.newExtractedFile id0 file))
  = App.mkExtractedFile id0 (name file) (type file) (size file) App.ERROR "" (Some message).
Proof.
  destruct file as [fname ftype b].
  unfold App.markCompleted, App.markError, App.markProcessing. simpl.
  by rewrite !String.eqb_refl.
Qed.

Lemma processQueue_cons (id0 : string) (file : File) (rest : list (string * File))
    (st : App.State) (log : list Event) :
  App.processQueue E ((id0, file) :: rest) st log
  = App.processQueue E rest (App.processSingleFile E id0 file st log).1
      (App.processSingleFile E id0 file st log).2.
Proof.
  cbn [App.processQueue]. by destruct (App.processSingleFile E id0 file st log).
Qed.

Lemma outcomes_cons (id0 : string) (file : File) (rest : list (string * File))
    (log : list Event) :
  App.outcomes E ((id0, file) :: rest) log
  = (App.settled id0 file (processFile E file log).1
       :: (App.outcomes E rest (processFile E file log).2).1,
     (App.outcomes E rest (processFile E file log).2).2).
Proof.
  cbn [App.outcomes]. destruct (processFile E file log) as [r log1].
  cbn [fst snd]. by destruct (App.outcomes E rest log1).
Qed.

Lemma settled_id (id0 : string) (file : File) (r : Outcome string) :
  App.id (App.settled id0 file r) = id0.
Proof. by destruct file, r. Qed.

Lemma processQueue_files (queue : list (string * File)) :
  forall (done : list App.ExtractedFile) (sel : option string) (log : list Event),
    NoDup queue.*1 ->
    Forall (fun f => App.id f ∉ queue.*1) done ->
    App.files
      (App.processQueue E queue
         (App.mkState
            (done ++ ((fun item => App.newExtractedFile item.1 item.2) <$> queue)) sel)
         log).1
    = (done ++ (App.outcomes E queue log).1)%list /\
    (App.processQueue E queue
       (App.mkState
          (done ++ ((fun item => App.newExtractedFile item.1 item.2) <$> queue)) sel)
       log).2
    = (App.outcomes E queue log).2.
Proof.
  induction queue as [|[id0 file] rest IH]; intros done sel log Hnodup Hdone.
  - simpl. by rewrite !app_nil_r.
  - rewrite fmap_cons in Hnodup. apply NoDup_cons in Hnodup as [Hfresh Hnodup].
    cbn [fst] in Hfresh.
    assert (Forall (fun f => App.id f <> id0) done) as Hdone0.
    { eapply Forall_impl; [exact Hdone|]. intros f Hf Heq. apply Hf.
      rewrite Heq. apply list_elem_of_here. }
    assert (Forall (fun f => App.id f <> id0)
              ((fun item => App.newExtractedFile item.1 item.2) <$> rest)) as Hrest0.
    { apply Forall_fmap, Forall_forall. intros [id1 file1] Hin.
      destruct file1 as [fname1 ftype1 b1]. simpl. intros Heq. apply Hfresh.
      apply list_elem_of_fmap. exists (id1, mkFile fname1 ftype1 b1). by split. }
    assert (Forall (fun f => App.id f ∉ rest.*1) done) as Hdone'.
    { eapply Forall_impl; [exact Hdone|]. intros f Hf Hin. apply Hf.
      by apply list_elem_of_further. }
    rewrite processQueue_cons, outcomes_cons, processSingleFile_unfold.
    cbn [fst snd App.files App.selectedFileId].
    rewrite fmap_cons. cbn [fst snd].
    set (pending := (fun item => App.newExtractedFile item.1 item.2) <$> rest) in *.
    destruct (processFile E file log) as [[text|e] log1]; cbn [fst snd].
    + rewrite !fmap_app, !fmap_cons.
      destruct (fmap_mark_others id0 text "" done Hdone0) as (-> & -> & _).
      destruct (fmap_mark_others id0 text "" pending Hrest0) as (-> & -> & _).
      rewrite (proj1 (settle_new id0 file text "")).
      rewrite (cons_middle _ done pending), app_assoc.
      rewrite (cons_middle _ done (App.outcomes E rest log1).1), app_assoc.
      apply IH; [done|]. apply Forall_app. split; [done|].
      constructor; [|done]. by rewrite settled_id.
    + rewrite !fmap_app, !fmap_cons.
      destruct (fmap_mark_others id0 "" (messageOrUnknown e) done Hdone0) as (-> & _ & ->).
      destruct (fmap_mark_others id0 "" (messageOrUnknown e) pending Hrest0)
        as (-> & _ & ->).
      rewrite (proj2 (settle_new id0 file "" (messageOrUnknown e))).
      replace (App.mkExtractedFile id0 (name file) (type file) (size file) App.ERROR ""
                 (Some (messageOrUnknown e)))
        with (App.settled id0 file (Rejected e)) by (by destruct file).
      rewrite (cons_middle _ done pending), app_assoc.
      rewrite (cons_middle _ done (App.outcomes E rest log1).1), app_assoc.
      apply IH; [done|]. apply Forall_app. split; [done|].
      constructor; [|done]. by rewrite settled_id.
Qed.

End AppFacts.

Section AppSelection.

Context (E : Externals).

Lemma processQueue_selection (queue : list (string * File)) :
  forall (st : App.State) (log : list Event),
    Forall (fun item => item.1 <> "") queue ->
    App.selectedFileId (App.processQueue E queue st log).1
    = if App.selected (App.selectedFileId st) then App.selectedFileId st
      else match App.firstCompleted (App.outcomes E queue log).1 with
           | Some id0 => Some id0
           | None => App.selectedFileId st
           end.
Proof.
  induction queue as [|[id0 file] rest IH]; intros st log Hids.
  - simpl. by destruct (App.selected _).
  - apply Forall_cons in Hids as [Hid Hids]. cbn [fst] in Hid.
    rewrite processQueue_cons, outcomes_cons, processSingleFile_unfold.
    cbn [fst snd]. rewrite (IH _ _ Hids).
    destruct (processFile E file log) as [[text|e] log1]; cbn [fst snd App.selectedFileId].
    + assert (App.firstCompleted
                (App.settled id0 file (Resolved text) :: (App.outcomes E rest log1).1)
              = Some id0) as -> by (by destruct file).
      unfold App.keepOrSelect, App.selected.
      destruct (App.selectedFileId st) as [p|].
      * destruct (String.eqb_spec p "") as [->|Hp]; simpl.
        -- by rewrite (proj2 (String.eqb_neq _ _) Hid).
        -- by rewrite (proj2 (String.eqb_neq _ _) Hp).
      * simpl. by rewrite (proj2 (String.eqb_neq _ _) Hid).
    + assert (App.firstCompleted
                (App.settled id0 file (Rejected e) :: (App.outcomes E rest log1).1)
              = App.firstCompleted (App.outcomes E rest log1).1) as ->
          by (by destruct file).
      done.
Qed.

End AppSelection.

(** X16: [processSingleFile] keeps the list as it is, entry for entry, except
    for the entries that carry its identifier: those end COMPLETED with the
    extracted text as content, or ERROR with the message of the error ("Unknown
    error" if it has none), and keep their name, type and size; no entry is
    left PROCESSING. *)
Theorem single_file_update
    (E : Externals) (id0 : string) (file : File) (st : App.State) (log : list Event) :
  let st' := (App.processSingleFile E id0 file st log).1 in
  App.id <$> App.files st' = App.id <$> App.files st /\
  (forall i f, App.files st !! i = Some f -> App.id f <> id0 ->
               App.files st' !! i = Some f) /\
  (forall i f, App.files st !! i = Some f -> App.id f = id0 ->
     App.files st' !! i
     = Some match (processFile E file log).1 with
            | Resolved text =>
                App.mkExtractedFile (App.id f) (App.name f) (App.type f) (App.size f)
                  App.COMPLETED text (App.errorMessage f)
            | Rejected e =>
                App.mkExtractedFile (App.id f) (App.name f) (App.type f) (App.size f)
                  App.ERROR (App.content f) (Some (messageOrUnknown e))
            end).
Proof.
  intros st'. subst st'. rewrite processSingleFile_unfold. cbn [fst].
  destruct (processFile E file log) as [[text|e] log1]; cbn [fst App.files].
  all: rewrite <- !list_fmap_compose; split; [|split].
  - apply list_fmap_ext. intros i f _. simpl.
    unfold App.markCompleted, App.markProcessing.
    by destruct (String.eqb (App.id f) id0) eqn:Hid; simpl; rewrite ?Hid.
  - intros i f Hf Hne. rewrite list_lookup_fmap, Hf. simpl.
    destruct (mark_other id0 text "" f Hne) as (-> & -> & _). done.
  - intros i f Hf Heq. rewrite list_lookup_fmap, Hf. simpl.
    unfold App.markCompleted, App.markProcessing.
    rewrite (proj2 (String.eqb_eq _ _) Heq). simpl.
    by rewrite (proj2 (String.eqb_eq _ _) Heq).
  - apply list_fmap_ext. intros i f _. simpl.
    unfold App.markError, App.markProcessing.
    by destruct (String.eqb (App.id f) id0) eqn:Hid; simpl; rewrite ?Hid.
  - intros i f Hf Hne. rewrite list_lookup_fmap, Hf. simpl.
    destruct (mark_other id0 "" (messageOrUnknown e) f Hne) as (-> & _ & ->). done.
  - intros i f Hf Heq. rewrite list_lookup_fmap, Hf. simpl.
    unfold App.markError, App.markProcessing.
    rewrite (proj2 (String.eqb_eq _ _) Heq). simpl.
    by rewrite (proj2 (String.eqb_eq _ _) Heq).
Qed.

(** X17: [addFiles], given identifiers that are distinct and not yet in the
    list, appends one entry per file in the order given and dispatches the
    files one after the other; each new entry ends COMPLETED or ERROR according
    to the outcome of its own file, a failing file does not stop the files
    after it, and the entries already in the list are unchanged. *)
Theorem addFiles_batch
    (E : Externals) (newFiles : list (string * File)) (st : App.State)
    (log : list Event) :
  NoDup newFiles.*1 ->
  Forall (fun f => App.id f ∉ newFiles.*1) (App.files st) ->
  App.files (App.addFiles E newFiles st log).1
  = (App.files st ++ (App.outcomes E newFiles log).1)%list /\
  (App.addFiles E newFiles st log).2 = (App.outcomes E newFiles log).2.
Proof.
  intros Hnodup Hfresh. unfold App.addFiles. cbn [App.files App.selectedFileId].
  by apply processQueue_files.
Qed.

Lemma addFiles_batch_witness :
  App.files
    (App.addFiles Sample.env
       [("k3x9a", Sample.pdf 20971521); ("p0q7z", mkFile "notes.txt" "text/plain" (Opaque 5 "hello"))]
       (App.mkState [] None) []).1
  = [ App.mkExtractedFile "k3x9a" "scan.pdf" "application/pdf" 20971521 App.ERROR ""
        (Some tooLargeMessage);
      App.mkExtractedFile "p0q7z" "notes.txt" "text/plain" 5 App.COMPLETED "hello" None ] /\
  (App.addFiles Sample.env
     [("k3x9a", Sample.pdf 20971521); ("p0q7z", mkFile "notes.txt" "text/plain" (Opaque 5 "hello"))]
     (App.mkState [] None) []).2 = [].
Proof.
  apply (addFiles_batch Sample.env
           [("k3x9a", Sample.pdf 20971521);
            ("p0q7z", mkFile "notes.txt" "text/plain" (Opaque 5 "hello"))]
           (App.mkState [] None) []).
  - repeat constructor; simpl; intros Hin;
      repeat (apply elem_of_cons in Hin as [Hin|Hin]; [discriminate Hin|]);
      by apply elem_of_nil in Hin.
  - constructor.
Defined.

(** X18: after [addFiles] a selection already made is kept; if nothing was
    selected, the selection is the first of the new files, in the order given,
    whose extraction completed, and it stays as it was if none did. (The
    identifiers are assumed non-empty: an empty one counts as no selection.) *)
Theorem addFiles_selection
    (E : Externals) (newFiles : list (string * File)) (st : App.State)
    (log : list Event) :
  Forall (fun item => item.1 <> "") newFiles ->
  App.selectedFileId (App.addFiles E newFiles st log).1
  = if App.selected (App.selectedFileId st) then App.selectedFileId st
    else match App.firstCompleted (App.outcomes E newFiles log).1 with
         | Some id0 => Some id0
         | None => App.selectedFileId st
         end.
Proof.
  intros Hids. unfold App.addFiles.
  by rewrite (processQueue_selection E newFiles _ log Hids).
Qed.

Lemma addFiles_selection_witness :
  App.selectedFileId
    (App.addFiles Sample.env
       [("k3x9a", Sample.pdf 20971521); ("p0q7z", mkFile "notes.txt" "text/plain" (Opaque 5 "hello"))]
       (App.mkState [] None) []).1
  = Some "p0q7z".
Proof.
  apply (addFiles_selection Sample.env
           [("k3x9a", Sample.pdf 20971521);
            ("p0q7z", mkFile "notes.txt" "text/plain" (Opaque 5 "hello"))]
           (App.mkState [] None) []).
  repeat constructor; discriminate.
Defined.

(** X19: removing a file does not cancel its extraction. When
    [processSingleFile] runs for an identifier that was removed, the file is
    dispatched as usual (with the same remote calls), no entry of the list
    changes, and if it completes while nothing is selected the selection is set
    to that identifier although no entry carries it. *)
Theorem removed_file_is_still_dispatched
    (E : Externals) (id0 : string) (file : File) (st : App.State) (log : list Event) :
  let st0 := App.removeFile id0 st in
  let r := App.processSingleFile E id0 file st0 log in
  Forall (fun f => App.id f <> id0) (App.files st0) /\
  App.files r.1 = App.files st0 /\
  r.2 = (processFile E file log).2 /\
  (forall text log',
     processFile E file log = (Resolved text, log') ->
     App.selected (App.selectedFileId st0) = false ->
     App.selectedFileId r.1 = Some id0).
Proof.
  intros st0 r.
  assert (Forall (fun f => App.id f <> id0) (App.files st0)) as Hgone.
  { subst st0. unfold App.removeFile. cbn [App.files].
    apply Forall_forall. intros f [_ Hf%negb_true_iff%String.eqb_neq]%list_elem_of_In%filter_In.
    done. }
  split; [done|]. subst r. rewrite processSingleFile_unfold. cbn [fst snd].
  split; [|split; [done|]].
  - destruct (processFile E file log) as [[text|e] log1]; cbn [fst App.files].
    + destruct (fmap_mark_others id0 text "" _ Hgone) as (-> & -> & _). done.
    + destruct (fmap_mark_others id0 "" (messageOrUnknown e) _ Hgone) as (-> & _ & ->).
      done.
  - intros text log' -> Hsel. cbn [fst App.selectedFileId].
    unfold App.keepOrSelect. unfold App.selected in Hsel.
    destruct (App.selectedFileId st0) as [p|]; [|done].
    apply negb_false_iff in Hsel. by rewrite Hsel.
Qed.

Lemma removed_file_is_still_dispatched_witness :
  App.selectedFileId
    (App.processSingleFile Sample.env "p0q7z"
       (mkFile "photo.png" "image/png" (Opaque 4 "AAAA"))
       (App.removeFile "p0q7z"
          (App.mkState
             [App.mkExtractedFile "p0q7z" "photo.png" "image/png" 4 App.PENDING "" None]
             (Some "p0q7z")))
       []).1
  = Some "p0q7z".
Proof.
  refine (proj2 (proj2 (proj2
            (removed_file_is_still_dispatched Sample.env "p0q7z"
               (mkFile "photo.png" "image/png" (Opaque 4 "AAAA"))
               (App.mkState
                  [App.mkExtractedFile "p0q7z" "photo.png" "image/png" 4 App.PENDING "" None]
                  (Some "p0q7z"))
               []))) "text of AAAA" _ eq_refl eq_refl).
Defined.

(** ** What is sent to the remote service *)

Section RemoteAudit.

Context (E : Externals).

Lemma extendsSupported_refl (log : list Event) : extendsSupported log log.
Proof. by exists []. Qed.

Lemma extendsSupported_trans (log1 log2 log3 : list Event) :
  extendsSupported log1 log2 -> extendsSupported log2 log3 -> extendsSupported log1 log3.
Proof.
  intros (new1 & -> & H1) (new2 & -> & H2). exists (new2 ++ new1)%list.
  split; [by rewrite app_assoc|]. by apply Forall_app.
Qed.

Lemma remoteBranch_audit (file : File) (log : list Event) :
  isGeminiSupported (type file) = true ->
  extendsSupported log (remoteBranch E file log).2.
Proof.
  intros Hsup. unfold remoteBranch.
  destruct (sizeLimit <? size file)%N; [apply extendsSupported_refl|].
  unfold bind, settle.
  destruct (readFileAsBase64 E (blobBytes (blob file))) as [base64|e];
    [|apply extendsSupported_refl].
  rewrite extractWithGemini_unfold. cbv zeta.
  destruct (String.eqb (apiKey E) "").
  - exists [ExtractCall (type file) base64]. split; [done|]. by repeat constructor.
  - assert (extendsSupported log
              (NetworkRequest (type file) base64 :: ExtractCall (type file) base64 :: log))
      as Htwo.
    { exists [NetworkRequest (type file) base64; ExtractCall (type file) base64].
      split; [done|]. by repeat constructor. }
    destruct (generateContent E _ (type file) base64) as [[t|]|cause];
      [destruct (String.eqb t "")|..]; exact Htwo.
Qed.

Lemma zipLoop_audit (files : list (string * ZipObject Blob)) :
  Forall (fun entry =>
            match entry with
            | (filename, mkZipObject dir content) =>
                forall log, extendsSupported log (entryOutcome E filename content log).2
            end) files ->
  forall acc log, extendsSupported log (zipLoop E files acc log).2.
Proof.
  induction 1 as [|[filename [dir content]] rest Hentry _ IH]; intros acc log.
  - apply extendsSupported_refl.
  - destruct dir; [apply IH|]. rewrite zipLoop_cons_file.
    eapply extendsSupported_trans; [apply Hentry|apply IH].
Qed.

Lemma processFile_audit (b : Blob) :
  forall fname mimeType log,
    extendsSupported log (processFile E (mkFile fname mimeType b) log).2.
Proof.
  induction b as [sz bytes|sz bytes files IH] using Blob_nested_ind;
    intros fname mimeType log.
  - destruct (classify mimeType fname) eqn:Hclass.
    1,7: rewrite processFile_Archive_zipLoop by (simpl; auto); apply extendsSupported_refl.
    1: { apply classify_remote_inv in Hclass as Hsup. destruct Hsup as [Hsup _].
         rewrite processFile_run. simpl. rewrite Hclass. by apply remoteBranch_audit. }
    all: rewrite processFile_local_log;
      [apply extendsSupported_refl|simpl; rewrite Hclass; apply list_elem_of_In; simpl; auto 10].
  - destruct (classify mimeType fname) eqn:Hclass.
    2: { apply classify_remote_inv in Hclass as Hsup. destruct Hsup as [Hsup _].
         rewrite processFile_run. simpl. rewrite Hclass. by apply remoteBranch_audit. }
    2-5,7: rewrite processFile_local_log;
      [apply extendsSupported_refl|simpl; rewrite Hclass; apply list_elem_of_In; simpl; auto 10].
    all: rewrite processFile_Archive_zipLoop by (simpl; auto); simpl;
      apply zipLoop_audit;
      rewrite Forall_forall in IH; apply Forall_forall;
      intros [filename [dir [fileData|e]]] Hin log0;
      [specialize (IH _ Hin); simpl in IH; apply IH|apply extendsSupported_refl].
Qed.

End RemoteAudit.

(** X20: whatever a file contains and however deeply its archives nest, the
    dispatch only adds to the log of remote calls, and every call it adds (an
    entry into the adapter or a request to the service) is made for a media
    type of the remote-supported set. *)
Theorem remote_calls_only_for_supported_types
    (E : Externals) (file : File) (log : list Event) :
  exists new,
    (processFile E file log).2 = (new ++ log)%list /\
    Forall (fun ev => isGeminiSupported (eventType ev) = true) new.
Proof. destruct file as [fname mimeType b]. apply processFile_audit. Qed.

(** ** Instances of the properties above *)

Lemma extract_resolves_iff_witness :
  extractWithGemini Sample.env "AAAA" "image/png" []
  = (Resolved "text of AAAA",
     [NetworkRequest "image/png" "AAAA"; ExtractCall "image/png" "AAAA"]).
Proof.
  apply (extract_resolves_iff Sample.env "AAAA" "image/png" "text of AAAA" []).
  repeat split; discriminate.
Defined.

Lemma pptx_failure_is_generic_witness :
  processPptxAsZip Sample.env (mkFile "deck.pptx" pptxType (Opaque 5 "hello")) []
  = (Rejected (newError "Lỗi đọc file PPTX."), []).
Proof.
  apply (pptx_failure_is_generic Sample.env
           (mkFile "deck.pptx" pptxType (Opaque 5 "hello")) []).
  exact I.
Defined.

Lemma single_file_update_witness :
  App.files
    (App.processSingleFile Sample.env "p0q7z"
       (mkFile "notes.txt" "text/plain" (Opaque 5 "hello"))
       (App.mkState
          [ App.mkExtractedFile "k3x9a" "scan.pdf" "application/pdf" 7 App.COMPLETED "seven" None;
            App.mkExtractedFile "p0q7z" "notes.txt" "text/plain" 5 App.PENDING "" None ]
          (Some "k3x9a")) []).1 !! 1%nat
  = Some (App.mkExtractedFile "p0q7z" "notes.txt" "text/plain" 5 App.COMPLETED "hello" None).
Proof.
  refine (proj2 (proj2
            (single_file_update Sample.env "p0q7z"
               (mkFile "notes.txt" "text/plain" (Opaque 5 "hello"))
               (App.mkState
                  [ App.mkExtractedFile "k3x9a" "scan.pdf" "application/pdf" 7
                      App.COMPLETED "seven" None;
                    App.mkExtractedFile "p0q7z" "notes.txt" "text/plain" 5
                      App.PENDING "" None ]
                  (Some "k3x9a")) []))
            1%nat _ eq_refl eq_refl).
Defined.
